(** * Leaderboard reporters of saitamau-maximum/icfpc2025

    Two Cloudflare-Worker style reporters post the contest leaderboard to a
    chat webhook:

    - the HTML reporter (scrapes the ranking page, [tableToMarkdown]), and
    - the API reporter ([reporter/src/index.ts], [responseToMarkdown]).

    The development embeds both workers shallowly: the pure string code as
    Rocq functions over [string], the [forEach]/[for ... of] loops as folds
    over an explicit loop state, and the [scheduled] handlers as programs of
    a small interaction monad whose runs produce the trace of console and
    network events. *)

From Stdlib Require Import String Ascii List ZArith Lia Bool Arith PeanoNat.
From Stdlib Require Import DecimalString.
Import ListNotations.

Local Open Scope list_scope.
Local Open Scope string_scope.

(** ** The JavaScript runtime pieces the workers use *)
Module Runtime.

(** The line feed the template literals write as a backslash followed by n. *)
Definition nl : string := String (ascii_of_nat 10) EmptyString.

(** [String.prototype.repeat(count)]. *)
Fixpoint repeat (s : string) (count : nat) : string :=
  match count with
  | O => ""
  | S count' => s ++ repeat s count'
  end.

(** [String.prototype.padEnd(maxLength)] with the default filler, one space:
    a string that is already [maxLength] long or longer comes back as it is. *)
Definition padEnd (s : string) (maxLength : nat) : string :=
  s ++ repeat " " (maxLength - String.length s).

(** [Array.prototype.join(sep)] on an array of strings. *)
Definition join (sep : string) (l : list string) : string := String.concat sep l.

(** [Array.prototype.map((x, index) => ...)]. *)
Fixpoint map_from {A B : Type} (f : A -> nat -> B) (index : nat) (l : list A) : list B :=
  match l with
  | [] => []
  | x :: l' => f x index :: map_from f (S index) l'
  end.

Definition mapi {A B : Type} (f : A -> nat -> B) (l : list A) : list B :=
  map_from f 0 l.

(** [Array.prototype.forEach((x, index) => ...)] where the callback updates
    the variables it closes over; [St] holds those variables. *)
Fixpoint forEach_from {A St : Type} (callback : A -> nat -> St -> St)
  (index : nat) (l : list A) (st : St) : St :=
  match l with
  | [] => st
  | x :: l' => forEach_from callback (S index) l' (callback x index st)
  end.

Definition forEach {A St : Type} (l : list A) (callback : A -> nat -> St -> St) (st : St) : St :=
  forEach_from callback 0 l st.

(** The values an element of the [maxLengths] array can take: a length, [NaN]
    (what [Math.max] gives once an operand is [undefined]), or [undefined]
    (what reading past the end of the array gives). *)
Inductive jsval : Type :=
| Undefined
| NaN
| Num (n : nat).

(** [arr[index]]: reading out of range gives [undefined]. *)
Definition array_get (arr : list jsval) (index : nat) : jsval :=
  nth index arr Undefined.

(** [arr[index] = v]: writing at the length appends, writing further away
    leaves holes, which read as [undefined]. *)
Fixpoint array_set (arr : list jsval) (index : nat) (v : jsval) : list jsval :=
  match index, arr with
  | O, [] => [v]
  | O, _ :: arr' => v :: arr'
  | S index', [] => Undefined :: array_set [] index' v
  | S index', x :: arr' => x :: array_set arr' index' v
  end.

(** [Math.max(a, b)] for an array element [a] and a string length [b]:
    [undefined] converts to [NaN], and [NaN] is absorbing. *)
Definition Math_max (a : jsval) (b : nat) : jsval :=
  match a with
  | Num n => Num (Nat.max n b)
  | NaN | Undefined => NaN
  end.

(** The conversion [padEnd] and [repeat] apply to their count argument:
    [NaN] and [undefined] count as 0. *)
Definition ToLength (v : jsval) : nat :=
  match v with
  | Num n => n
  | NaN | Undefined => 0
  end.

(** The truthiness test of [if (s)] on a variable that holds a string or is
    still [undefined]: only a non-empty string passes. *)
Definition truthy (v : option string) : bool :=
  match v with
  | Some s => negb (s =? "")
  | None => false
  end.

(** [Number.prototype.toString()] on the integers the workers print. *)
Definition nat_toString (n : nat) : string :=
  NilZero.string_of_uint (Nat.to_uint n).

Definition Z_toString (z : Z) : string :=
  NilZero.string_of_int (Z.to_int z).

(** *** Dates

    A [Date] is its time value, the milliseconds since the epoch; [>=] and
    [<=] on two dates compare the time values. *)
Definition Date : Type := Z.

(** Days from 1970-01-01 to the given civil date (proleptic Gregorian). *)
Definition days_from_civil (y m d : Z) : Z :=
  let y' := if (m <=? 2)%Z then (y - 1)%Z else y in
  let era := (y' / 400)%Z in
  let yoe := (y' - era * 400)%Z in
  let mp := ((m + 9) mod 12)%Z in
  let doy := ((153 * mp + 2) / 5 + d - 1)%Z in
  let doe := (yoe * 365 + yoe / 4 - yoe / 100 + doy)%Z in
  (era * 146097 + doe - 719468)%Z.

(** [new Date('YYYY-MM-DDTHH:MM:SSZ')]. *)
Definition Date_UTC (y m d hh mm ss : Z) : Date :=
  ((((days_from_civil y m d * 24 + hh) * 60 + mm) * 60 + ss) * 1000)%Z.

(** [Date.prototype.getMinutes()]; the workers' runtime keeps its clock in
    UTC, so the local minute is the UTC minute. *)
Definition getMinutes (date : Date) : Z := ((date / 60000) mod 60)%Z.

(** *** The interaction monad of a [scheduled] handler

    [R] is what the handler gets out of the response to its GET (the parsed
    document's table, or the decoded JSON array). *)
Inductive Level : Type := LogLevel | ErrorLevel.

Inductive Exception : Type := TypeError.

Inductive Worker (R A : Type) : Type :=
| Ret (a : A)
| Throw (e : Exception)
| NewDate (k : Date -> Worker R A)
| Console (lvl : Level) (msg : string) (k : Worker R A)
| FetchGet (url : string) (k : R -> Worker R A)
| FetchPost (url : string) (content : option string) (k : Worker R A).

Arguments Ret {R A} a.
Arguments Throw {R A} e.
Arguments NewDate {R A} k.
Arguments Console {R A} lvl msg k.
Arguments FetchGet {R A} url k.
Arguments FetchPost {R A} url content k.

Fixpoint bind {R A B : Type} (w : Worker R A) (f : A -> Worker R B) : Worker R B :=
  match w with
  | Ret a => f a
  | Throw e => Throw e
  | NewDate k => NewDate (fun d => bind (k d) f)
  | Console lvl msg k => Console lvl msg (bind k f)
  | FetchGet url k => FetchGet url (fun r => bind (k r) f)
  | FetchPost url content k => FetchPost url content (bind k f)
  end.

(** [new Date()]. *)
Definition new_Date {R : Type} : Worker R Date := NewDate Ret.

(** [console.log(msg)] and [console.error(msg)]. *)
Definition console_log {R : Type} (msg : string) : Worker R unit :=
  Console LogLevel msg (Ret tt).

Definition console_error {R : Type} (msg : string) : Worker R unit :=
  Console ErrorLevel msg (Ret tt).

(** [await fetch(url)] followed by the decoding of the response. *)
Definition fetch {R : Type} (url : string) : Worker R R := FetchGet url Ret.

(** [await fetch(url, { method: 'POST', headers: ..., body: JSON.stringify({ content }) })].
    [JSON.stringify] leaves out a property whose value is [undefined]: the
    content [None] stands for the body [{}]. *)
Definition fetch_post {R : Type} (url : string) (content : option string) : Worker R unit :=
  FetchPost url content (Ret tt).

Declare Scope worker_scope.
Delimit Scope worker_scope with worker.
Notation "x <- c1 ;; c2" := (bind c1 (fun x => c2))
  (at level 100, c1 at next level, right associativity) : worker_scope.
Notation "c1 ;; c2" := (bind c1 (fun _ => c2))
  (at level 100, right associativity) : worker_scope.

(** What an observer of one invocation sees. *)
Inductive Event : Type :=
| EConsole (lvl : Level) (msg : string)
| EGet (url : string)
| EPost (url : string) (content : option string).

Inductive Outcome (A : Type) : Type :=
| Returned (a : A)
| Uncaught (e : Exception).

Arguments Returned {A} a.
Arguments Uncaught {A} e.

(** The world of one invocation: the successive readings of the clock and the
    (decoded) response to the handler's GET. These are the runs in which the
    network calls of the handler resolve; [Network.runNet] covers the runs in
    which one of them rejects as well. *)
Record World (R : Type) : Type := mkWorld {
  clock : nat -> Date;
  response : R
}.

Arguments mkWorld {R} clock response.
Arguments clock {R} w n.
Arguments response {R} w.

(** [run w world n]: the events of [w] and how it ends, [n] readings of the
    clock having been made before. *)
Fixpoint run {R A : Type} (w : Worker R A) (world : World R) (n : nat)
  : list Event * Outcome A :=
  match w with
  | Ret a => ([], Returned a)
  | Throw e => ([], Uncaught e)
  | NewDate k => run (k (clock world n)) world (S n)
  | Console lvl msg k =>
      let '(tr, o) := run k world n in (EConsole lvl msg :: tr, o)
  | FetchGet url k =>
      let '(tr, o) := run (k (response world)) world n in (EGet url :: tr, o)
  | FetchPost url content k =>
      let '(tr, o) := run k world n in (EPost url content :: tr, o)
  end.

Definition trace {R A : Type} (w : Worker R A) (world : World R) : list Event :=
  fst (run w world 0).

Definition outcome {R A : Type} (w : Worker R A) (world : World R) : Outcome A :=
  snd (run w world 0).

(** The network events among the events of a run. *)
Definition isFetch (e : Event) : bool :=
  match e with
  | EGet _ | EPost _ _ => true
  | EConsole _ _ => false
  end.

Definition isGet (e : Event) : bool :=
  match e with
  | EGet _ => true
  | EPost _ _ | EConsole _ _ => false
  end.

Definition isPost (e : Event) : bool :=
  match e with
  | EPost _ _ => true
  | EGet _ | EConsole _ _ => false
  end.

End Runtime.

(** ** The HTML reporter: the worker that scrapes the ranking page *)
Module HtmlReporter.
Import Runtime.

Definition RANKING_PAGE_URL : string :=
  "https://icfpcontest2025.github.io/aedificium.html".
Definition CONTEST_START_AT : Date := Date_UTC 2025 9 5 12 0 0.
Definition CONTEST_END_AT : Date := Date_UTC 2025 9 8 12 0 0.

Definition isContestPeriod (date : Date) : bool :=
  (date >=? CONTEST_START_AT)%Z && (date <=? CONTEST_END_AT)%Z.

Definition is0Minute (date : Date) : bool := (getMinutes date =? 0)%Z.

(** What the worker reads of the parsed document. A cell ([th] or [td]) is
    its [text]; a row is what [row.querySelectorAll('td')] gives; a table is
    what [table.querySelector('thead')] gives ([None] for [null], else the
    cells of [header.querySelectorAll('th')]) together with the rows of
    [table.querySelectorAll('tbody tr')]. *)
Definition Row : Type := list string.

Record Table : Type := mkTable {
  thead : option (list string);
  tbody_tr : list Row
}.

Definition isMaximum (text : string) : bool := text =? "Maximum".

Definition isMaximumRow (row : Row) : bool :=
  existsb (fun cell => isMaximum cell) row.

(** The variables of the first [rows.forEach]. *)
Record ScanState : Type := mkScan {
  maximumRank : option string;
  maxLengths : list jsval
}.

(** [maxLengths[index] = Math.max(maxLengths[index], cell.text.length)]. *)
Definition scanCell (cell : string) (index : nat) (maxLengths : list jsval) : list jsval :=
  array_set maxLengths index (Math_max (array_get maxLengths index) (String.length cell)).

(** The callback of the first [rows.forEach]. In a row that [isMaximumRow]
    accepts, [row.querySelectorAll('td')[0]] exists, so [hd_error] is [Some]
    where it is read. *)
Definition scanRow (row : Row) (_ : nat) (st : ScanState) : ScanState :=
  let maximumRank := if isMaximumRow row then hd_error row else maximumRank st in
  let cells := row in
  mkScan maximumRank (forEach cells scanCell (maxLengths st)).

(** [`| ${cells.map((cell, index) => cell.text.padEnd(maxLengths[index])).join(' | ')} |`],
    the text of the header line and of each body line. *)
Definition cellsLine (maxLengths : list jsval) (cells : list string) : string :=
  "| " ++ join " | " (mapi (fun cell index => padEnd cell (ToLength (array_get maxLengths index))) cells) ++ " |".

(** [`| ${headerCells.map((_, index) => '-'.repeat(maxLengths[index])).join(' | ')} |`]. *)
Definition separatorLine (maxLengths : list jsval) (headerCells : list string) : string :=
  "| " ++ join " | " (mapi (fun (_ : string) index => repeat "-" (ToLength (array_get maxLengths index))) headerCells) ++ " |".

(** The variables of the second [rows.forEach]. *)
Record RenderState : Type := mkRender {
  markdown : string;
  isMaximumIncluded : bool
}.

(** The callback of the second [rows.forEach]; [index > 10] is written
    [10 <? index], and the early [return] leaves [markdown] as it is. *)
Definition renderRow (maxLengths : list jsval) (row : Row) (index : nat) (st : RenderState)
  : RenderState :=
  let isMaximumIncluded := if isMaximumRow row then true else isMaximumIncluded st in
  if isMaximumIncluded && (10 <? index)%nat then mkRender (markdown st) isMaximumIncluded
  else
    let cells := row in
    let markdown := markdown st ++ cellsLine maxLengths cells in
    let markdown := markdown ++ nl in
    mkRender markdown isMaximumIncluded.

(** The rest of [tableToMarkdown] once the header is found. *)
Definition renderTable (headerCells : list string) (rows : list Row) : string :=
  let markdown := "" in
  let maxLengths := map (fun cell => Num (String.length cell)) headerCells in
  let scan := forEach rows scanRow (mkScan None maxLengths) in
  let maximumRank := maximumRank scan in
  let maxLengths := HtmlReporter.maxLengths scan in
  let markdown :=
    if truthy maximumRank
    then markdown ++ ("Maximum is **" ++ match maximumRank with Some r => r | None => "" end ++ "th**" ++ nl)
    else markdown in
  let markdown := markdown ++ (RANKING_PAGE_URL ++ nl) in
  let markdown := markdown ++ ("```markdown" ++ nl) in
  let markdown := markdown ++ cellsLine maxLengths headerCells in
  let markdown := markdown ++ nl in
  let markdown := markdown ++ separatorLine maxLengths headerCells in
  let markdown := markdown ++ nl in
  let render := forEach rows (renderRow maxLengths) (mkRender markdown false) in
  let markdown := HtmlReporter.markdown render in
  let markdown := markdown ++ ("```" ++ nl) in
  markdown.

(** [tableToMarkdown]: without a [thead] it logs and returns [undefined]
    ([None]); otherwise it returns the rendered text. *)
Definition tableToMarkdown (table : Table) : Worker (option Table) (option string) :=
  match thead table with
  | None => (console_error "Header not found" ;; Ret None)%worker
  | Some headerCells => Ret (Some (renderTable headerCells (tbody_tr table)))
  end.

Record Env : Type := mkEnv { DISCORD_WEBHOOK_URL : string }.

(** The [scheduled] handler. The response to the GET is read as
    [parse(await resp.text()).querySelector('table')]: [None] is [null]. *)
Definition scheduled (env : Env) : Worker (option Table) unit :=
  (date <- new_Date ;;
   if negb (isContestPeriod date) then console_log "not in contest period"
   else
     date <- new_Date ;;
     if negb (is0Minute date) then console_log "not 0 minute"
     else
       table <- fetch RANKING_PAGE_URL ;;
       match table with
       | None => console_error "Table not found"
       | Some table =>
           content <- tableToMarkdown table ;;
           fetch_post (DISCORD_WEBHOOK_URL env) content
       end)%worker.

End HtmlReporter.

(** ** The API reporter: [reporter/src/index.ts] *)
Module Reporter.
Import Runtime.

Definition RANKING_API_URL : string :=
  "https://31pwr5t6ij.execute-api.eu-west-2.amazonaws.com/leaderboard/global".
Definition CONTEST_START_AT : Date := Date_UTC 2025 9 5 12 0 0.
Definition CONTEST_END_AT : Date := Date_UTC 2025 9 8 12 0 0.

Definition isContestPeriod (date : Date) : bool :=
  (date >=? CONTEST_START_AT)%Z && (date <=? CONTEST_END_AT)%Z.

(** One item of the leaderboard. The scores of the leaderboard are integers;
    [!==] on two of them is their being different numbers. *)
Record ResultItem : Type := mkResult {
  teamName : string;
  teamPl : string;
  score : Z
}.

Definition APIResponse : Type := list ResultItem.

Definition RANK_MAX_LENGTH : nat := 5.
Definition TEAM_NAME_MAX_LENGTH : nat := 60.
Definition SCORE_MAX_LENGTH : nat := 5.

(** The variables the [for ... of] loop updates. *)
Record LoopState : Type := mkLoop {
  markdown : string;
  rank : nat;
  prevScore : Z;
  idx : nat
}.

(** The line the loop writes for [result] when its rank is [rank]. *)
Definition resultLine (rank : nat) (result : ResultItem) : string :=
  "| " ++ padEnd (nat_toString rank) RANK_MAX_LENGTH
  ++ " | " ++ padEnd (teamName result) TEAM_NAME_MAX_LENGTH
  ++ " | " ++ padEnd (Z_toString (score result)) SCORE_MAX_LENGTH
  ++ " |" ++ nl.

(** The body of the [for ... of] loop. *)
Definition loopBody (st : LoopState) (result : ResultItem) : LoopState :=
  let '(rank, prevScore) :=
    if negb (score result =? prevScore st)%Z
    then (rank st + 1, score result)
    else (rank st, prevScore st) in
  let markdown :=
    if (teamName result =? "Maximum") || (idx st <? 10)%nat
    then markdown st ++ resultLine rank result
    else markdown st in
  mkLoop markdown rank prevScore (idx st + 1).

(** The variables as the loop finds them: [results[0]] is [first]. *)
Definition loopStart (first : ResultItem) : LoopState :=
  let markdown := "" in
  let rank := 1 in
  let prevScore := score first in
  let markdown := markdown ++ ("```" ++ nl) in
  let markdown := markdown
    ++ ("| " ++ padEnd "Rank" RANK_MAX_LENGTH
        ++ " | " ++ padEnd "Team Name" TEAM_NAME_MAX_LENGTH
        ++ " | " ++ padEnd "Score" SCORE_MAX_LENGTH ++ " |" ++ nl) in
  let markdown := markdown
    ++ ("| " ++ repeat "-" RANK_MAX_LENGTH
        ++ " | " ++ repeat "-" TEAM_NAME_MAX_LENGTH
        ++ " | " ++ repeat "-" SCORE_MAX_LENGTH ++ " |" ++ nl) in
  let idx := 0 in
  mkLoop markdown rank prevScore idx.

(** [responseToMarkdown]: on the empty array [results[0]] is [undefined] and
    reading its [score] throws a [TypeError]. *)
Definition responseToMarkdown {R : Type} (results : APIResponse) : Worker R string :=
  match results with
  | [] => Throw TypeError
  | first :: _ =>
      let st := fold_left loopBody results (loopStart first) in
      let markdown := markdown st ++ ("```" ++ nl) in
      Ret markdown
  end.

Record Env : Type := mkEnv { DISCORD_WEBHOOK_URL : string }.

(** The [scheduled] handler. The response to the GET is read as
    [(await resp.json()) as APIResponse]. *)
Definition scheduled (env : Env) : Worker APIResponse unit :=
  (date <- new_Date ;;
   if negb (isContestPeriod date) then console_log "not in contest period"
   else
     results <- fetch RANKING_API_URL ;;
     content <- responseToMarkdown results ;;
     fetch_post (DISCORD_WEBHOOK_URL env) (Some content))%worker.

End Reporter.

(** ** The vocabulary of the specification, read off the workers *)
Module Vocabulary.
Import Runtime.

(** The index of the first element that satisfies [p]; [None] when there is
    none (the specification's infinite cutoff). *)
Fixpoint findIndex {A : Type} (p : A -> bool) (l : list A) : option nat :=
  match l with
  | [] => None
  | x :: l' => if p x then Some 0 else option_map S (findIndex p l')
  end.

(** [i <= cutoff] and [i < cutoff] for a cutoff that may be infinite. *)
Definition atMost (i : nat) (cutoff : option nat) : Prop :=
  match cutoff with
  | Some c => i <= c
  | None => True
  end.

Definition below (i : nat) (cutoff : option nat) : Prop :=
  match cutoff with
  | Some c => i < c
  | None => True
  end.

(** The text of a list of lines, each ended by a line feed. *)
Fixpoint unlines (lines : list string) : string :=
  match lines with
  | [] => ""
  | line :: lines' => line ++ nl ++ unlines lines'
  end.

(** The last element that satisfies [p]. *)
Definition findLast {A : Type} (p : A -> bool) (l : list A) : option A :=
  find p (rev l).

End Vocabulary.

(** *** The HTML reporter seen from outside *)
Module HtmlView.
Import Runtime HtmlReporter Vocabulary.

(** The variables of [tableToMarkdown] after its first loop. *)
Definition scanTable (headerCells : list string) (rows : list Row) : ScanState :=
  forEach rows scanRow (mkScan None (map (fun cell => Num (String.length cell)) headerCells)).

Definition tableWidths (headerCells : list string) (rows : list Row) : list jsval :=
  maxLengths (scanTable headerCells rows).

Definition tableRank (headerCells : list string) (rows : list Row) : option string :=
  maximumRank (scanTable headerCells rows).

(** The printed width of column [j]. *)
Definition columnWidth (headerCells : list string) (rows : list Row) (j : nat) : nat :=
  ToLength (array_get (tableWidths headerCells rows) j).

(** The highlight line, when there is one. *)
Definition highlight (maximumRank : option string) : string :=
  match maximumRank with
  | Some r => if truthy maximumRank then "Maximum is **" ++ r ++ "th**" ++ nl else ""
  | None => ""
  end.

(** What [markdown] holds when the second loop starts. *)
Definition preamble (headerCells : list string) (rows : list Row) : string :=
  let ml := tableWidths headerCells rows in
  highlight (tableRank headerCells rows)
  ++ RANKING_PAGE_URL ++ nl
  ++ "```markdown" ++ nl
  ++ cellsLine ml headerCells ++ nl
  ++ separatorLine ml headerCells ++ nl.

(** The variables of the second loop when it reaches the row of index [i]. *)
Definition renderStateAt (headerCells : list string) (rows : list Row) (i : nat) : RenderState :=
  forEach (firstn i rows) (renderRow (tableWidths headerCells rows))
    (mkRender (preamble headerCells rows) false).

(** The row of index [i] is included in the rendered table: the second loop,
    at that row, appends the row's line to [markdown]. *)
Definition rowIncluded (headerCells : list string) (rows : list Row) (i : nat) : Prop :=
  exists row, nth_error rows i = Some row /\
    markdown (renderStateAt headerCells rows (S i))
    = markdown (renderStateAt headerCells rows i)
      ++ cellsLine (tableWidths headerCells rows) row ++ nl.

(** The index of the first tracked row. *)
Definition cutoffIndex (rows : list Row) : option nat := findIndex isMaximumRow rows.

(** The rows the second loop prints, with the flag it starts from. *)
Fixpoint shownRows (index : nat) (seen : bool) (rows : list Row) : list Row :=
  match rows with
  | [] => []
  | row :: rows' =>
      let seen' := if isMaximumRow row then true else seen in
      if seen' && (10 <? index)%nat then shownRows (S index) seen' rows'
      else row :: shownRows (S index) seen' rows'
  end.

(** The lines of a text, cut at the line feeds that end them. *)
Fixpoint splitLines (s : string) : list string :=
  match s with
  | EmptyString => []
  | String c s' =>
      if Ascii.eqb c (ascii_of_nat 10) then "" :: splitLines s'
      else match splitLines s' with
           | [] => [String c ""]
           | line :: lines => String c line :: lines
           end
  end.

Fixpoint hasLineFeed (s : string) : bool :=
  match s with
  | EmptyString => false
  | String c s' => Ascii.eqb c (ascii_of_nat 10) || hasLineFeed s'
  end.

(** The length of a line whose columns have the widths [ws]. *)
Definition lineLength (ws : list nat) : nat :=
  2 + (list_sum ws + 3 * (length ws - 1)) + 2.

End HtmlView.

(** *** The API reporter seen from outside *)
Module ApiView.
Import Runtime Reporter Vocabulary.

(** The variables of the loop after [k] results. *)
Definition stateAt (first : ResultItem) (results : APIResponse) (k : nat) : LoopState :=
  fold_left loopBody (firstn k results) (loopStart first).

(** The rank the loop holds for each result in turn: the rank assigned to it. *)
Definition ranks (results : APIResponse) : list nat :=
  match results with
  | [] => []
  | first :: _ => map (fun i => rank (stateAt first results (S i))) (seq 0 (length results))
  end.

Definition scores (results : APIResponse) : list Z := map score results.

(** [rank] when the loop reaches the result of index [i]. *)
Definition rankAt (results : APIResponse) (i : nat) : option nat :=
  match results with
  | [] => None
  | first :: _ => Some (rank (stateAt first results i))
  end.

(** [prevScore] when the loop reaches the result of index [i]. *)
Definition prevScoreAt (results : APIResponse) (i : nat) : option Z :=
  match results with
  | [] => None
  | first :: _ => Some (prevScore (stateAt first results i))
  end.

(** The result of index [i] is included in the rendered table: the loop, at
    that result, appends the result's line to [markdown]. *)
Definition rowIncluded (results : APIResponse) (i : nat) : Prop :=
  match results with
  | [] => False
  | first :: _ =>
      exists result, nth_error results i = Some result /\
        markdown (stateAt first results (S i))
        = markdown (stateAt first results i)
          ++ resultLine (rank (stateAt first results (S i))) result
  end.

Definition isTracked (result : ResultItem) : bool := teamName result =? "Maximum".

Definition cutoffIndex (results : APIResponse) : option nat := findIndex isTracked results.

(** The scores go down (or stay) along the sequence. *)
Fixpoint descending (l : list Z) : bool :=
  match l with
  | a :: (b :: _) as l' => (b <=? a)%Z && descending l'
  | _ => true
  end.

End ApiView.

(** *** The inputs of the specification's scenarios *)
Module Scenarios.
Import Runtime.

Definition apiA : Reporter.APIResponse :=
  [ Reporter.mkResult "Alpha" "" 100;
    Reporter.mkResult "Maximum" "" 90;
    Reporter.mkResult "Beta" "" 90;
    Reporter.mkResult "Gamma" "" 80 ].

Definition headerA : list string := ["Rank"; "Team"; "Score"].

Definition rowsA : list HtmlReporter.Row :=
  [ ["1"; "Alpha"; "100"];
    ["2"; "Maximum"; "90"];
    ["2"; "Beta"; "90"];
    ["3"; "Gamma"; "80"] ].

Definition tableA : HtmlReporter.Table := HtmlReporter.mkTable (Some headerA) rowsA.

(** Scenario B: fifteen entries, the scores all different and going down, the
    tracked entry at index 12. *)
Definition nameB (i : nat) : string := if (i =? 12)%nat then "Maximum" else "Team".

Definition scoreB (i : nat) : Z := (150 - 10 * Z.of_nat i)%Z.

Definition apiB : Reporter.APIResponse :=
  map (fun i => Reporter.mkResult (nameB i) "" (scoreB i)) (seq 0 15).

Definition rowsB : list HtmlReporter.Row :=
  map (fun i => [nat_toString (i + 1); nameB i; Z_toString (scoreB i)]) (seq 0 15).

Definition tableB : HtmlReporter.Table := HtmlReporter.mkTable (Some headerA) rowsB.

(** A table whose tracked row has an empty first cell. *)
Definition rowsEmptyRank : list HtmlReporter.Row :=
  [ ["1"; "Alpha"; "100"];
    [""; "Maximum"; "90"] ].

Definition tableEmptyRank : HtmlReporter.Table :=
  HtmlReporter.mkTable (Some headerA) rowsEmptyRank.

(** A row whose name cell is not the tracked name while its score cell reads
    ["Maximum"]. *)
Definition rowScoreMaximum : HtmlReporter.Row := ["1"; "Alpha"; "Maximum"].

(** A table without a header section. *)
Definition tableNoHeader : HtmlReporter.Table := HtmlReporter.mkTable None rowsA.

(** One minute before the contest window opens. *)
Definition minuteBefore : Date := Date_UTC 2025 9 5 11 59 0.

(** Noon of the second contest day, a full hour inside the window. *)
Definition noonInside : Date := Date_UTC 2025 9 6 12 0 0.

Definition htmlEnv : HtmlReporter.Env := HtmlReporter.mkEnv "https://discord.example/webhook".

Definition apiEnv : Reporter.Env := Reporter.mkEnv "https://discord.example/webhook".

End Scenarios.

(** *** Runs in which a network call may reject *)
Module Network.
Import Runtime.

(** How the promise of a network call settles. For the GET, [Resolved r] is
    [await fetch(url)] and the reading of the body ([resp.text()],
    [resp.json()]) both resolving, [r] being what the handler gets out of it;
    [Rejected] is either of the two rejecting. *)
Inductive Settled (A : Type) : Type :=
| Resolved (a : A)
| Rejected.

Arguments Resolved {A} a.
Arguments Rejected {A}.

(** How a run ends: as in [Outcome], or on the rejection of an awaited network
    call, which no handler catches. *)
Inductive NetOutcome (A : Type) : Type :=
| Ended (o : Outcome A)
| UncaughtRejection.

Arguments Ended {A} o.
Arguments UncaughtRejection {A}.

(** The world of one invocation: the readings of the clock, how the GET
    settles and how the POST settles. *)
Record NetWorld (R : Type) : Type := mkNetWorld {
  netClock : nat -> Date;
  getSettles : Settled R;
  postSettles : Settled unit
}.

Arguments mkNetWorld {R} netClock getSettles postSettles.
Arguments netClock {R} _ _.
Arguments getSettles {R} _.
Arguments postSettles {R} _.

(** [runNet w world n]: the events of [w] and how it ends; a network call is
    an event whether it resolves or rejects, and a rejection ends the run. *)
Fixpoint runNet {R A : Type} (w : Worker R A) (world : NetWorld R) (n : nat)
  : list Event * NetOutcome A :=
  match w with
  | Ret a => ([], Ended (Returned a))
  | Throw e => ([], Ended (Uncaught e))
  | NewDate k => runNet (k (netClock world n)) world (S n)
  | Console lvl msg k =>
      let '(tr, o) := runNet k world n in (EConsole lvl msg :: tr, o)
  | FetchGet url k =>
      match getSettles world with
      | Resolved r => let '(tr, o) := runNet (k r) world n in (EGet url :: tr, o)
      | Rejected => ([EGet url], UncaughtRejection)
      end
  | FetchPost url content k =>
      match postSettles world with
      | Resolved _ => let '(tr, o) := runNet k world n in (EPost url content :: tr, o)
      | Rejected => ([EPost url content], UncaughtRejection)
      end
  end.

Definition netTrace {R A : Type} (w : Worker R A) (world : NetWorld R) : list Event :=
  fst (runNet w world 0).

Definition netOutcome {R A : Type} (w : Worker R A) (world : NetWorld R) : NetOutcome A :=
  snd (runNet w world 0).

End Network.

(** *** Further vocabulary: ragged tables, score changes, the API table *)
Module MoreVocabulary.
Import Runtime.

(** The strings of a list put one after the other. *)
Fixpoint concatLines (lines : list string) : string :=
  match lines with
  | [] => ""
  | line :: lines' => line ++ concatLines lines'
  end.

(** How many times the score changes from one entry to the next. *)
Fixpoint changes (l : list Z) : nat :=
  match l with
  | a :: (b :: _) as l' => (if (a =? b)%Z then 0 else 1) + changes l'
  | _ => 0
  end.

(** How many different scores a list has. *)
Definition distinct (l : list Z) : nat := length (nodup Z.eq_dec l).

(** The three lines [responseToMarkdown] writes before its loop, each with its
    line feed. *)
Definition apiFenceLine : string := "```" ++ nl.

Definition apiHeaderLine : string :=
  "| " ++ padEnd "Rank" Reporter.RANK_MAX_LENGTH
  ++ " | " ++ padEnd "Team Name" Reporter.TEAM_NAME_MAX_LENGTH
  ++ " | " ++ padEnd "Score" Reporter.SCORE_MAX_LENGTH ++ " |" ++ nl.

Definition apiSeparatorLine : string :=
  "| " ++ repeat "-" Reporter.RANK_MAX_LENGTH
  ++ " | " ++ repeat "-" Reporter.TEAM_NAME_MAX_LENGTH
  ++ " | " ++ repeat "-" Reporter.SCORE_MAX_LENGTH ++ " |" ++ nl.

(** Each result with the rank the loop assigns to it. *)
Definition ranked (results : Reporter.APIResponse) : list (nat * Reporter.ResultItem) :=
  combine (ApiView.ranks results) results.

Definition rankedLine (rr : nat * Reporter.ResultItem) : string :=
  Reporter.resultLine (fst rr) (snd rr).

(** The ranks the loop assigns to the results [l] when it starts from [st]. *)
Definition ranksFrom (st : Reporter.LoopState) (l : list Reporter.ResultItem) : list nat :=
  map (fun i => Reporter.rank (fold_left Reporter.loopBody (firstn (S i) l) st))
    (seq 0 (length l)).

(** The ranked results the loop writes a line for, [idx] being the index of
    the first of them. *)
Fixpoint selectFrom (idx : nat) (l : list (nat * Reporter.ResultItem))
  : list (nat * Reporter.ResultItem) :=
  match l with
  | [] => []
  | rr :: l' =>
      if (Reporter.teamName (snd rr) =? "Maximum") || (idx <? 10)%nat
      then rr :: selectFrom (S idx) l'
      else selectFrom (S idx) l'
  end.

(** By how much the three texts of a result's line exceed the fixed widths. *)
Definition overflow (rank : nat) (result : Reporter.ResultItem) : nat :=
  (String.length (nat_toString rank) - Reporter.RANK_MAX_LENGTH)
  + (String.length (Reporter.teamName result) - Reporter.TEAM_NAME_MAX_LENGTH)
  + (String.length (Z_toString (Reporter.score result)) - Reporter.SCORE_MAX_LENGTH).

(** Every POST of a trace comes after a GET of the trace; [seenGet] tells
    whether a GET came before the trace. *)
Fixpoint postsFollowGet (seenGet : bool) (tr : list Event) : bool :=
  match tr with
  | [] => true
  | EGet _ :: tr' => postsFollowGet true tr'
  | EPost _ _ :: tr' => seenGet && postsFollowGet seenGet tr'
  | EConsole _ _ :: tr' => postsFollowGet seenGet tr'
  end.

(** A table with one cell per header column in each row, one cell holding a
    line feed. *)
Definition headerLineFeed : list string := ["Rank"; "Team"].

Definition rowsLineFeed : list HtmlReporter.Row :=
  [ ["1"; "Ab" ++ nl ++ "Cd"];
    ["2"; "Zed"] ].

Definition tableLineFeed : HtmlReporter.Table :=
  HtmlReporter.mkTable (Some headerLineFeed) rowsLineFeed.

(** A ragged table: a row one cell short and a row one cell long. *)
Definition rowsRagged : list HtmlReporter.Row :=
  [ ["1"; "Alpha"];
    ["2"; "Maximum"; "90"; "extra"];
    ["3"; "Gamma"; "80"] ].

End MoreVocabulary.

(** * Facts about the runtime pieces *)
Module RuntimeFacts.
Import Runtime.

Lemma append_assoc (a b c : string) : (a ++ b) ++ c = a ++ (b ++ c).
Proof.
  induction a as [| ch a IH]; simpl; [reflexivity | now rewrite IH].
Qed.

Lemma append_empty_r (a : string) : a ++ "" = a.
Proof.
  induction a as [| ch a IH]; simpl; [reflexivity | now rewrite IH].
Qed.

Lemma length_append (a b : string) :
  String.length (a ++ b) = String.length a + String.length b.
Proof.
  induction a as [| ch a IH]; simpl; [reflexivity | now rewrite IH].
Qed.

Lemma append_cancel_l (a b c : string) : a ++ b = a ++ c -> b = c.
Proof.
  induction a as [| ch a IH]; simpl; intros H; [exact H |].
  injection H as H. now apply IH.
Qed.

(** Appending a non-empty text changes a string. *)
Lemma append_fresh (a b : string) : b <> "" -> a ++ b <> a.
Proof.
  intros Hb H. apply Hb.
  apply (append_cancel_l a). now rewrite append_empty_r.
Qed.

Lemma length_nl : String.length nl = 1.
Proof. reflexivity. Qed.

Lemma length_repeat (s : string) (count : nat) :
  String.length (repeat s count) = count * String.length s.
Proof.
  induction count as [| n IH]; simpl; [reflexivity |].
  now rewrite length_append, IH.
Qed.

(** [padEnd] gives the longer of the two lengths. *)
Lemma length_padEnd (s : string) (maxLength : nat) :
  String.length (padEnd s maxLength) = Nat.max (String.length s) maxLength.
Proof.
  unfold padEnd. rewrite length_append, length_repeat. simpl. lia.
Qed.

(** [padEnd] keeps the whole text and only adds spaces behind it. *)
Lemma padEnd_keeps_text (s : string) (maxLength : nat) :
  prefix s (padEnd s maxLength) = true.
Proof.
  unfold padEnd. generalize (repeat " " (maxLength - String.length s)) as t.
  induction s as [| ch s IH]; intros t; simpl.
  - now destruct t.
  - destruct (ascii_dec ch ch) as [_ | Hne]; [apply IH | now elim Hne].
Qed.

Lemma length_join (sep : string) (l : list string) :
  String.length (join sep l)
  = list_sum (map String.length l) + String.length sep * (length l - 1).
Proof.
  unfold join.
  induction l as [| x l IH]; simpl; [lia |].
  destruct l as [| y l]; [simpl; lia |].
  rewrite !length_append, IH. simpl. lia.
Qed.

Lemma map_from_length {A B : Type} (f : A -> nat -> B) (k : nat) (l : list A) :
  length (map_from f k l) = length l.
Proof.
  revert k. induction l as [| x l IH]; intros k; simpl; [reflexivity | now rewrite IH].
Qed.

(** [map_from] element by element. *)
Lemma map_from_seq {A B : Type} (f : A -> nat -> B) (k : nat) (l : list A) (d : A) :
  map_from f k l = map (fun j => f (nth j l d) (k + j)) (seq 0 (length l)).
Proof.
  revert k. induction l as [| x l IH]; intros k; simpl; [reflexivity |].
  rewrite Nat.add_0_r. f_equal.
  rewrite IH, <- seq_shift, map_map.
  apply map_ext. intros j. now rewrite Nat.add_succ_comm.
Qed.

Lemma firstn_S_snoc {A : Type} (l : list A) (i : nat) (x : A) :
  nth_error l i = Some x -> firstn (S i) l = (firstn i l ++ [x])%list.
Proof.
  revert i. induction l as [| y l IH]; intros [| i] Hx; simpl in *; try discriminate.
  - now injection Hx as ->.
  - now rewrite (IH i Hx).
Qed.

Lemma forEach_from_app {A St : Type} (cb : A -> nat -> St -> St) (k : nat)
  (l1 l2 : list A) (st : St) :
  forEach_from cb k (l1 ++ l2)%list st
  = forEach_from cb (k + length l1) l2 (forEach_from cb k l1 st).
Proof.
  revert k st. induction l1 as [| x l1 IH]; intros k st; simpl.
  - now rewrite Nat.add_0_r.
  - rewrite IH. now rewrite Nat.add_succ_comm.
Qed.

(** One more turn of a [forEach] loop. *)
Lemma forEach_firstn_S {A St : Type} (cb : A -> nat -> St -> St) (l : list A)
  (i : nat) (x : A) (st : St) :
  nth_error l i = Some x ->
  forEach (firstn (S i) l) cb st = cb x i (forEach (firstn i l) cb st).
Proof.
  intros Hx. unfold forEach.
  assert (Hlt : i < length l) by (apply nth_error_Some; congruence).
  rewrite (firstn_S_snoc _ _ _ Hx), forEach_from_app. simpl.
  rewrite length_firstn, Nat.min_l by lia. reflexivity.
Qed.

Lemma forEach_firstn_all {A St : Type} (cb : A -> nat -> St -> St) (l : list A) (st : St) :
  forEach (firstn (length l) l) cb st = forEach l cb st.
Proof. now rewrite firstn_all. Qed.

Lemma array_get_set_same (arr : list jsval) (i : nat) (v : jsval) :
  array_get (array_set arr i v) i = v.
Proof.
  unfold array_get. revert arr.
  induction i as [| i IH]; intros [| x arr]; simpl; auto.
Qed.

Lemma array_get_set_other (arr : list jsval) (i j : nat) (v : jsval) :
  i <> j -> array_get (array_set arr i v) j = array_get arr j.
Proof.
  unfold array_get. revert arr j.
  induction i as [| i IH]; intros [| x arr] [| j] Hne; simpl; try congruence.
  - now destruct j.
  - rewrite IH by congruence. now destruct j.
  - apply IH. congruence.
Qed.

End RuntimeFacts.

(** * Facts about the vocabulary *)
Module VocabularyFacts.
Import Vocabulary.

(** No element of the first [n] satisfies [p] exactly when the first one that
    does, if any, sits at [n] or later. *)
Lemma existsb_firstn_findIndex {A : Type} (p : A -> bool) (l : list A) (n : nat) :
  existsb p (firstn n l) = false <->
  match findIndex p l with Some c => n <= c | None => True end.
Proof.
  revert n. induction l as [| x l IH]; intros n.
  - rewrite firstn_nil. simpl. tauto.
  - destruct n as [| n]; simpl.
    + destruct (p x); [split; auto; lia |].
      destruct (findIndex p l); simpl; split; auto; lia.
    + destruct (p x) eqn:Hp; simpl.
      * split; [discriminate | lia].
      * rewrite IH. destruct (findIndex p l); simpl; [lia | tauto].
Qed.

Lemma findIndex_Some {A : Type} (p : A -> bool) (l : list A) (c : nat) :
  findIndex p l = Some c ->
  exists x, nth_error l c = Some x /\ p x = true.
Proof.
  revert c. induction l as [| y l IH]; intros c; simpl; [discriminate |].
  destruct (p y) eqn:Hp.
  - intros [= <-]. exists y. auto.
  - destruct (findIndex p l) as [c' |]; simpl; [| discriminate].
    intros [= <-]. simpl. now apply IH.
Qed.

Lemma findIndex_None {A : Type} (p : A -> bool) (l : list A) :
  findIndex p l = None <-> existsb p l = false.
Proof.
  induction l as [| y l IH]; simpl; [tauto |].
  destruct (p y); simpl; [split; discriminate |].
  rewrite <- IH. destruct (findIndex p l); simpl; split; congruence.
Qed.

End VocabularyFacts.

(** * Facts about the HTML reporter *)
Module HtmlFacts.
Import Runtime RuntimeFacts HtmlReporter Vocabulary VocabularyFacts HtmlView.

Lemma isMaximum_spec (text : string) : isMaximum text = true <-> text = "Maximum".
Proof. unfold isMaximum. apply String.eqb_eq. Qed.

Lemma isMaximumRow_spec (row : Row) :
  isMaximumRow row = true <-> exists cell, In cell row /\ cell = "Maximum".
Proof.
  unfold isMaximumRow. rewrite existsb_exists.
  split; intros [cell [Hin H]]; exists cell; split; auto; now apply isMaximum_spec.
Qed.

(** A tracked row has a first cell. *)
Lemma isMaximumRow_hd (row : Row) :
  isMaximumRow row = true -> exists cell, hd_error row = Some cell.
Proof.
  destruct row as [| cell row]; [discriminate | intros _; now exists cell].
Qed.

Lemma cellsLine_nl_nonempty (ml : list jsval) (cells : list string) :
  cellsLine ml cells ++ nl <> "".
Proof. unfold cellsLine. simpl. discriminate. Qed.

(** The header found, [renderTable] is the preamble, the second loop and the
    closing fence. *)
Lemma renderTable_unfold (headerCells : list string) (rows : list Row) :
  renderTable headerCells rows
  = markdown (forEach rows (renderRow (tableWidths headerCells rows))
                (mkRender (preamble headerCells rows) false))
    ++ "```" ++ nl.
Proof.
  unfold renderTable. cbv zeta.
  fold (scanTable headerCells rows). fold (tableWidths headerCells rows).
  fold (tableRank headerCells rows).
  match goal with
  | |- markdown (forEach _ _ (mkRender ?pre _)) ++ _ = _ =>
      replace pre with (preamble headerCells rows); [reflexivity |]
  end.
  unfold preamble, highlight. cbv zeta.
  destruct (tableRank headerCells rows) as [r |].
  - destruct (truthy (Some r)); rewrite !append_assoc; reflexivity.
  - rewrite !append_assoc. reflexivity.
Qed.

(** One turn of the second loop either leaves [markdown] as it is or appends
    the line of the row. *)
Lemma renderRow_markdown (ml : list jsval) (row : Row) (index : nat) (st : RenderState) :
  markdown (renderRow ml row index st)
  = if (isMaximumRow row || isMaximumIncluded st) && (10 <? index)%nat
    then markdown st
    else markdown st ++ cellsLine ml row ++ nl.
Proof.
  unfold renderRow.
  destruct (isMaximumRow row), (isMaximumIncluded st), (10 <? index)%nat;
    cbn [andb orb markdown]; now rewrite ?append_assoc.
Qed.

Lemma renderRow_flag (ml : list jsval) (row : Row) (index : nat) (st : RenderState) :
  isMaximumIncluded (renderRow ml row index st)
  = isMaximumRow row || isMaximumIncluded st.
Proof.
  unfold renderRow.
  destruct (isMaximumRow row), (isMaximumIncluded st), (10 <? index)%nat;
    reflexivity.
Qed.

(** The flag of the second loop tells whether a tracked row has been met. *)
Lemma render_flag (ml : list jsval) (k : nat) (rows : list Row) (st : RenderState) :
  isMaximumIncluded (forEach_from (renderRow ml) k rows st)
  = isMaximumIncluded st || existsb isMaximumRow rows.
Proof.
  revert k st. induction rows as [| row rows IH]; intros k st; simpl.
  - now rewrite orb_false_r.
  - rewrite IH, renderRow_flag.
    destruct (isMaximumRow row), (isMaximumIncluded st); reflexivity.
Qed.

(** The text the second loop writes. *)
Lemma render_markdown (ml : list jsval) (k : nat) (rows : list Row) (md : string) (seen : bool) :
  markdown (forEach_from (renderRow ml) k rows (mkRender md seen))
  = md ++ unlines (map (cellsLine ml) (shownRows k seen rows)).
Proof.
  revert k md seen. induction rows as [| row rows IH]; intros k md seen;
    cbn [forEach_from shownRows].
  - cbn. now rewrite append_empty_r.
  - unfold renderRow at 2. cbn [isMaximumIncluded markdown].
    destruct ((if isMaximumRow row then true else seen) && (10 <? k)%nat).
    + apply IH.
    + rewrite IH. cbn [map unlines]. now rewrite !append_assoc.
Qed.

Lemma shownRows_incl (k : nat) (seen : bool) (rows : list Row) :
  incl (shownRows k seen rows) rows.
Proof.
  revert k seen. induction rows as [| row rows IH]; intros k seen; simpl.
  - apply incl_refl.
  - destruct ((if isMaximumRow row then true else seen) && (10 <? k)%nat).
    + apply incl_tl, IH.
    + apply incl_cons; [now left | apply incl_tl, IH].
Qed.

(** The whole output of a table that has a header. *)
Lemma tableToMarkdown_output (headerCells : list string) (rows : list Row) :
  tableToMarkdown (mkTable (Some headerCells) rows)
  = Ret (Some (highlight (tableRank headerCells rows)
               ++ RANKING_PAGE_URL ++ nl
               ++ "```markdown" ++ nl
               ++ unlines (cellsLine (tableWidths headerCells rows) headerCells
                           :: separatorLine (tableWidths headerCells rows) headerCells
                           :: map (cellsLine (tableWidths headerCells rows))
                                (shownRows 0 false rows))
               ++ "```" ++ nl)).
Proof.
  unfold tableToMarkdown. cbn [thead tbody_tr].
  rewrite renderTable_unfold. unfold forEach. rewrite render_markdown.
  unfold preamble. cbn [unlines]. now rewrite !append_assoc.
Qed.

(** Which rows the second loop includes. *)
Lemma rowIncluded_iff (headerCells : list string) (rows : list Row) (i : nat) :
  i < length rows ->
  (rowIncluded headerCells rows i <-> i <= 10 \/ below i (cutoffIndex rows)).
Proof.
  intros Hi.
  destruct (nth_error rows i) as [row |] eqn:Hrow;
    [| apply nth_error_None in Hrow; lia].
  unfold rowIncluded, renderStateAt.
  rewrite (forEach_firstn_S _ _ _ _ _ Hrow), renderRow_markdown.
  unfold forEach at 1. rewrite render_flag. simpl isMaximumIncluded. simpl orb.
  set (st := forEach (firstn i rows) _ _).
  assert (Hseen : isMaximumRow row || existsb isMaximumRow (firstn i rows)
                  = existsb isMaximumRow (firstn (S i) rows)).
  { clear -Hrow. revert i Hrow. induction rows as [| y rows IH]; intros [| i] Hrow;
      simpl in *; try discriminate.
    - injection Hrow as ->. now rewrite orb_false_r.
    - rewrite <- (IH i Hrow).
      destruct (isMaximumRow row), (isMaximumRow y); reflexivity. }
  rewrite Hseen.
  pose proof (existsb_firstn_findIndex isMaximumRow rows (S i)) as Hfind.
  fold (cutoffIndex rows) in Hfind.
  destruct (existsb isMaximumRow (firstn (S i) rows)) eqn:Hex; cbn [andb].
  - destruct (10 <? i)%nat eqn:H10.
    + apply Nat.ltb_lt in H10. split.
      * intros [row' [Hrow' Heq]]. exfalso.
        symmetry in Heq. revert Heq. apply append_fresh, cellsLine_nl_nonempty.
      * intros [Hle | Hbelow]; [lia |]. exfalso.
        unfold below in Hbelow.
        destruct (cutoffIndex rows) as [c |].
        -- destruct Hfind as [_ Hfind]. discriminate Hfind. lia.
        -- destruct Hfind as [_ Hfind]. discriminate Hfind. exact I.
    + apply Nat.ltb_ge in H10. split; [left; lia |].
      intros _. now exists row.
  - split; [| intros _; now exists row].
    intros _. right. destruct Hfind as [Hfind _]. specialize (Hfind eq_refl).
    unfold below. destruct (cutoffIndex rows); [lia | exact I].
Qed.

End HtmlFacts.

(** * Facts about the API reporter *)
Module ApiFacts.
Import Runtime RuntimeFacts Reporter Vocabulary VocabularyFacts ApiView.

Lemma loopBody_rank (st : LoopState) (result : ResultItem) :
  rank (loopBody st result)
  = if (score result =? prevScore st)%Z then rank st else rank st + 1.
Proof.
  unfold loopBody. now destruct (score result =? prevScore st)%Z.
Qed.

Lemma loopBody_prevScore (st : LoopState) (result : ResultItem) :
  prevScore (loopBody st result)
  = if (score result =? prevScore st)%Z then prevScore st else score result.
Proof.
  unfold loopBody. now destruct (score result =? prevScore st)%Z.
Qed.

(** After a turn of the loop [prevScore] is the score of the result just seen. *)
Lemma loopBody_prevScore_is_score (st : LoopState) (result : ResultItem) :
  prevScore (loopBody st result) = score result.
Proof.
  rewrite loopBody_prevScore.
  destruct (score result =? prevScore st)%Z eqn:E; [| reflexivity].
  apply Z.eqb_eq in E. congruence.
Qed.

Lemma loopBody_idx (st : LoopState) (result : ResultItem) :
  idx (loopBody st result) = idx st + 1.
Proof.
  unfold loopBody. now destruct (score result =? prevScore st)%Z.
Qed.

(** One turn of the loop either leaves [markdown] as it is or appends the
    line of the result, with the rank just computed. *)
Lemma loopBody_markdown (st : LoopState) (result : ResultItem) :
  markdown (loopBody st result)
  = if (teamName result =? "Maximum") || (idx st <? 10)%nat
    then markdown st ++ resultLine (rank (loopBody st result)) result
    else markdown st.
Proof.
  unfold loopBody. now destruct (score result =? prevScore st)%Z.
Qed.

Lemma resultLine_nonempty (r : nat) (result : ResultItem) : resultLine r result <> "".
Proof. unfold resultLine. cbn [append]. discriminate. Qed.

(** One more turn of the loop. *)
Lemma stateAt_S (first : ResultItem) (results : APIResponse) (i : nat) (result : ResultItem) :
  nth_error results i = Some result ->
  stateAt first results (S i) = loopBody (stateAt first results i) result.
Proof.
  intros Hx. unfold stateAt.
  now rewrite (firstn_S_snoc _ _ _ Hx), fold_left_app.
Qed.

Lemma stateAt_idx (first : ResultItem) (results : APIResponse) (i : nat) :
  i <= length results -> idx (stateAt first results i) = i.
Proof.
  induction i as [| i IH]; intros Hi; [reflexivity |].
  destruct (nth_error results i) as [result |] eqn:Hx;
    [| apply nth_error_None in Hx; lia].
  rewrite (stateAt_S _ _ _ _ Hx), loopBody_idx, IH; lia.
Qed.

Lemma nth_error_scores (results : APIResponse) (i : nat) (result : ResultItem) :
  nth_error results i = Some result -> nth i (scores results) 0%Z = score result.
Proof.
  intros Hx. unfold scores.
  apply nth_error_nth. now rewrite nth_error_map, Hx.
Qed.

Lemma ranks_length (results : APIResponse) : length (ranks results) = length results.
Proof.
  destruct results as [| first rest]; [reflexivity |].
  unfold ranks. now rewrite length_map, length_seq.
Qed.

Lemma ranks_nth (first : ResultItem) (rest : list ResultItem) (i : nat) :
  i < length (first :: rest) ->
  nth i (ranks (first :: rest)) 0 = rank (stateAt first (first :: rest) (S i)).
Proof.
  intros Hi. unfold ranks.
  set (f := fun i => rank (stateAt first (first :: rest) (S i))).
  rewrite (nth_indep _ 0 (f 0)) by now rewrite length_map, length_seq.
  rewrite map_nth, seq_nth by exact Hi. reflexivity.
Qed.

(** The rank of the first result is 1. *)
Lemma ranks_first (first : ResultItem) (rest : list ResultItem) :
  nth 0 (ranks (first :: rest)) 0 = 1.
Proof.
  rewrite ranks_nth by (simpl; lia).
  rewrite (stateAt_S first (first :: rest) 0 first eq_refl), loopBody_rank.
  unfold stateAt. cbn [firstn fold_left loopStart prevScore rank].
  now rewrite Z.eqb_refl.
Qed.

(** From one result to the next the rank goes up by one when the score
    changes and stays when it does not. *)
Lemma ranks_next (results : APIResponse) (i : nat) :
  S i < length results ->
  nth (S i) (ranks results) 0
  = if (nth (S i) (scores results) 0 =? nth i (scores results) 0)%Z
    then nth i (ranks results) 0
    else nth i (ranks results) 0 + 1.
Proof.
  intros Hi. destruct results as [| first rest]; [simpl in Hi; lia |].
  set (results := first :: rest) in *.
  destruct (nth_error results i) as [a |] eqn:Ha;
    [| apply nth_error_None in Ha; lia].
  destruct (nth_error results (S i)) as [b |] eqn:Hb;
    [| apply nth_error_None in Hb; lia].
  unfold results. rewrite !ranks_nth by (fold results; lia). fold results.
  rewrite (nth_error_scores _ _ _ Ha), (nth_error_scores _ _ _ Hb).
  rewrite (stateAt_S _ _ _ _ Hb), loopBody_rank.
  rewrite (stateAt_S _ _ _ _ Ha), loopBody_prevScore_is_score.
  reflexivity.
Qed.

Lemma ranks_monotone (results : APIResponse) (i j : nat) :
  i <= j -> j < length results ->
  nth i (ranks results) 0 <= nth j (ranks results) 0.
Proof.
  intros Hij. induction Hij as [| j Hij IH]; intros Hj; [lia |].
  rewrite (ranks_next results j Hj).
  specialize (IH ltac:(lia)).
  destruct (_ =? _)%Z; lia.
Qed.

(** Going down along the whole sequence, not only from one to the next. *)
Lemma descending_next (l : list Z) (i : nat) :
  descending l = true -> S i < length l -> (nth (S i) l 0 <= nth i l 0)%Z.
Proof.
  revert i. induction l as [| a l IH]; intros i Hd Hi; [simpl in Hi; lia |].
  destruct l as [| b l]; [simpl in Hi; lia |].
  cbn [descending] in Hd. apply andb_true_iff in Hd as [Hab Hd].
  destruct i as [| i].
  - simpl. now apply Z.leb_le.
  - change (nth (S (S i)) (a :: b :: l) 0%Z) with (nth (S i) (b :: l) 0%Z).
    change (nth (S i) (a :: b :: l) 0%Z) with (nth i (b :: l) 0%Z).
    apply IH; [exact Hd | simpl in *; lia].
Qed.

(** On scores that go down, equal ranks are equal scores. *)
Lemma ranks_equal_iff (results : APIResponse) (i j : nat) :
  descending (scores results) = true ->
  i <= j -> j < length results ->
  (nth j (scores results) 0 <= nth i (scores results) 0)%Z /\
  (nth i (ranks results) 0 = nth j (ranks results) 0
   <-> nth i (scores results) 0%Z = nth j (scores results) 0%Z).
Proof.
  intros Hd Hij. induction Hij as [| j Hij IH]; intros Hj.
  - split; [lia | tauto].
  - destruct (IH ltac:(lia)) as [Hle Hiff].
    assert (Hlen : S j < length (scores results))
      by (unfold scores; now rewrite length_map).
    pose proof (descending_next _ j Hd Hlen) as Hstep.
    pose proof (ranks_monotone results i j Hij ltac:(lia)) as Hmono.
    rewrite (ranks_next results j Hj).
    destruct (_ =? _)%Z eqn:E.
    + apply Z.eqb_eq in E. rewrite E. split; [lia | exact Hiff].
    + apply Z.eqb_neq in E. split; [lia |]. split; intros H; lia.
Qed.

End ApiFacts.

(** * Column widths of the HTML reporter *)
Module HtmlWidthFacts.
Import Runtime RuntimeFacts HtmlReporter Vocabulary HtmlView HtmlFacts.

(** What the loop over the cells of a row leaves in [maxLengths], read index
    by index. *)
Lemma scanCells_get (cells : list string) (k : nat) (ml : list jsval) (j : nat) :
  array_get (forEach_from scanCell k cells ml) j
  = if (k <=? j)%nat && (j <? k + length cells)%nat
    then Math_max (array_get ml j) (String.length (nth (j - k) cells ""))
    else array_get ml j.
Proof.
  revert k ml. induction cells as [| c cells IH]; intros k ml; cbn [forEach_from length].
  - destruct (k <=? j)%nat eqn:E1; [| reflexivity].
    destruct (j <? k + 0)%nat eqn:E2; [| reflexivity].
    apply Nat.leb_le in E1. apply Nat.ltb_lt in E2. lia.
  - rewrite IH. unfold scanCell.
    destruct (Nat.eq_dec k j) as [-> | Hne].
    + rewrite array_get_set_same.
      replace (S j <=? j)%nat with false by (symmetry; apply Nat.leb_gt; lia).
      replace (j <=? j)%nat with true by (symmetry; apply Nat.leb_le; lia).
      replace (j <? j + S (length cells))%nat with true
        by (symmetry; apply Nat.ltb_lt; lia).
      now rewrite Nat.sub_diag.
    + rewrite array_get_set_other by exact Hne.
      destruct (k <=? j)%nat eqn:E1.
      * apply Nat.leb_le in E1.
        replace (S k <=? j)%nat with true by (symmetry; apply Nat.leb_le; lia).
        replace (j <? S k + length cells)%nat with (j <? k + S (length cells))%nat
          by (f_equal; lia).
        replace (j - k) with (S (j - S k)) by lia. reflexivity.
      * apply Nat.leb_gt in E1.
        replace (S k <=? j)%nat with false by (symmetry; apply Nat.leb_gt; lia).
        reflexivity.
Qed.

(** Column [j] after the rows, every one of which has a cell in column [j]. *)
Lemma scanRows_get (rows : list Row) (k : nat) (st : ScanState) (j w : nat) :
  (forall row, In row rows -> j < length row) ->
  array_get (maxLengths st) j = Num w ->
  array_get (maxLengths (forEach_from scanRow k rows st)) j
  = Num (Nat.max w (list_max (map (fun row => String.length (nth j row "")) rows))).
Proof.
  revert k st w. induction rows as [| row rows IH]; intros k st w Hall Hw;
    cbn [forEach_from map list_max fold_right].
  - now rewrite Nat.max_0_r.
  - rewrite (IH _ _ (Nat.max w (String.length (nth j row "")))).
    + f_equal. change (fold_right Nat.max 0) with list_max. lia.
    + intros r Hr. apply Hall. now right.
    + unfold scanRow. cbn [maxLengths]. unfold forEach. rewrite scanCells_get.
      assert (Hj : j < length row) by (apply Hall; now left).
      replace (0 <=? j)%nat with true by (symmetry; apply Nat.leb_le; lia).
      replace (j <? 0 + length row)%nat with true by (symmetry; apply Nat.ltb_lt; lia).
      rewrite Hw, Nat.sub_0_r. reflexivity.
Qed.

(** The width of a column is the longest text of the column, header included. *)
Lemma tableWidths_get (headerCells : list string) (rows : list Row) (j : nat) :
  (forall row, In row rows -> length row = length headerCells) ->
  j < length headerCells ->
  array_get (tableWidths headerCells rows) j
  = Num (list_max (String.length (nth j headerCells "")
                   :: map (fun row => String.length (nth j row "")) rows)).
Proof.
  intros Hall Hj. unfold tableWidths, scanTable, forEach.
  cbn [list_max fold_right]. change (fold_right Nat.max 0) with list_max.
  apply scanRows_get.
  - intros row Hrow. rewrite (Hall row Hrow). exact Hj.
  - cbn [maxLengths]. unfold array_get.
    rewrite (nth_indep _ Undefined (Num (String.length ""))) by now rewrite length_map.
    now rewrite (map_nth (fun cell => Num (String.length cell))).
Qed.

Lemma list_max_In (l : list nat) (x : nat) : In x l -> x <= list_max l.
Proof.
  intros Hin. pose proof (proj1 (list_max_le l (list_max l)) (Nat.le_refl _)) as H.
  rewrite Forall_forall in H. now apply H.
Qed.

(** Every text of a column fits the width of the column. *)
Lemma cell_fits (headerCells : list string) (rows : list Row) (cells : list string) (j : nat) :
  (forall row, In row rows -> length row = length headerCells) ->
  cells = headerCells \/ In cells rows ->
  j < length headerCells ->
  String.length (nth j cells "") <= columnWidth headerCells rows j.
Proof.
  intros Hall Hcells Hj. unfold columnWidth.
  rewrite (tableWidths_get _ _ _ Hall Hj). cbn [ToLength].
  apply list_max_In. destruct Hcells as [-> | Hin]; [now left | right].
  apply in_map_iff. now exists cells.
Qed.

(** A line of cells, cell by cell. *)
Lemma cellsLine_cells (ml : list jsval) (cells : list string) :
  cellsLine ml cells
  = "| " ++ join " | " (map (fun j => padEnd (nth j cells "") (ToLength (array_get ml j)))
                          (seq 0 (length cells))) ++ " |".
Proof.
  unfold cellsLine, mapi. now rewrite (map_from_seq _ 0 cells "").
Qed.

Lemma length_cellsLine (ml : list jsval) (cells : list string) :
  String.length (cellsLine ml cells)
  = lineLength (map (fun j => Nat.max (String.length (nth j cells "")) (ToLength (array_get ml j)))
                  (seq 0 (length cells))).
Proof.
  rewrite cellsLine_cells. unfold lineLength.
  rewrite !length_append, length_join, !length_map, length_seq, map_map.
  rewrite (map_ext _ _ (fun j => length_padEnd (nth j cells "") (ToLength (array_get ml j)))).
  cbn [String.length]. lia.
Qed.

Lemma length_separatorLine (ml : list jsval) (headerCells : list string) :
  String.length (separatorLine ml headerCells)
  = lineLength (map (fun j => ToLength (array_get ml j)) (seq 0 (length headerCells))).
Proof.
  unfold separatorLine, mapi, lineLength. rewrite (map_from_seq _ 0 headerCells "").
  rewrite !length_append, length_join, !length_map, length_seq, map_map.
  rewrite (map_ext _ (fun j => ToLength (array_get ml j))).
  - cbn [String.length]. lia.
  - intros j. rewrite length_repeat. cbn [String.length Nat.add]. lia.
Qed.

(** The line of the header and of every row has the length the widths give. *)
Lemma length_cellsLine_table (headerCells : list string) (rows : list Row) (cells : list string) :
  (forall row, In row rows -> length row = length headerCells) ->
  cells = headerCells \/ In cells rows ->
  String.length (cellsLine (tableWidths headerCells rows) cells)
  = lineLength (map (columnWidth headerCells rows) (seq 0 (length headerCells))).
Proof.
  intros Hall Hcells. rewrite length_cellsLine.
  assert (Hlen : length cells = length headerCells)
    by (destruct Hcells as [-> | Hin]; [reflexivity | now apply Hall]).
  rewrite Hlen. f_equal. apply map_ext_in. intros j Hj.
  apply in_seq in Hj. fold (columnWidth headerCells rows j).
  pose proof (cell_fits headerCells rows cells j Hall Hcells ltac:(lia)). lia.
Qed.

End HtmlWidthFacts.

(** * The highlight line and the inclusion of results *)
Module TrackedFacts.
Import Runtime RuntimeFacts Vocabulary VocabularyFacts.

Lemma find_app {A : Type} (p : A -> bool) (l1 l2 : list A) :
  find p (l1 ++ l2)%list
  = match find p l1 with Some x => Some x | None => find p l2 end.
Proof.
  induction l1 as [| x l1 IH]; cbn [find app]; [reflexivity |].
  now destruct (p x).
Qed.

Lemma findLast_cons {A : Type} (p : A -> bool) (x : A) (l : list A) :
  findLast p (x :: l)
  = match findLast p l with
    | Some y => Some y
    | None => if p x then Some x else None
    end.
Proof. unfold findLast. cbn [rev]. now rewrite find_app. Qed.

Lemma findLast_Some {A : Type} (p : A -> bool) (l : list A) (x : A) :
  findLast p l = Some x -> In x l /\ p x = true.
Proof.
  unfold findLast. intros H. apply find_some in H as [Hin Hp].
  split; [now apply in_rev | exact Hp].
Qed.

Lemma findLast_None {A : Type} (p : A -> bool) (l : list A) :
  findLast p l = None <-> existsb p l = false.
Proof.
  induction l as [| x l IH]; [cbn; tauto |].
  rewrite findLast_cons. cbn [existsb].
  destruct (findLast p l) as [y |] eqn:Hl.
  - split; [discriminate |]. intros H. apply orb_false_iff in H as [_ H].
    apply IH in H. discriminate.
  - destruct (p x); cbn [orb]; [split; discriminate |].
    split; intros _; [now apply IH | reflexivity].
Qed.

Import HtmlReporter HtmlView.

(** [maximumRank] after the first loop: the first cell of the last tracked row. *)
Lemma scanRows_rank (rows : list Row) (k : nat) (st : ScanState) :
  maximumRank (forEach_from scanRow k rows st)
  = match findLast isMaximumRow rows with
    | Some row => hd_error row
    | None => maximumRank st
    end.
Proof.
  revert k st. induction rows as [| row rows IH]; intros k st; [reflexivity |].
  cbn [forEach_from]. rewrite IH, findLast_cons.
  destruct (findLast isMaximumRow rows); [reflexivity |].
  unfold scanRow. cbn [maximumRank]. now destruct (isMaximumRow row).
Qed.

Lemma tableRank_spec (headerCells : list string) (rows : list Row) :
  tableRank headerCells rows
  = match findLast isMaximumRow rows with
    | Some row => hd_error row
    | None => None
    end.
Proof. unfold tableRank, scanTable, forEach. now rewrite scanRows_rank. Qed.

Import Reporter ApiView ApiFacts.

(** Which results the loop of the API reporter includes. *)
Lemma api_rowIncluded_iff (results : APIResponse) (i : nat) (result : ResultItem) :
  nth_error results i = Some result ->
  (ApiView.rowIncluded results i <-> i < 10 \/ teamName result = "Maximum").
Proof.
  intros Hx. destruct results as [| first rest]; [now destruct i |].
  unfold ApiView.rowIncluded. cbv iota.
  set (results := first :: rest) in *.
  assert (Hi : i < length results) by (apply nth_error_Some; congruence).
  rewrite (stateAt_S _ _ _ _ Hx), loopBody_markdown.
  rewrite stateAt_idx by lia.
  destruct (teamName result =? "Maximum") eqn:Hname; cbn [orb].
  - apply String.eqb_eq in Hname. split; [now right | intros _; now exists result].
  - apply String.eqb_neq in Hname.
    destruct (i <? 10)%nat eqn:H10.
    + apply Nat.ltb_lt in H10. split; [now left | intros _; now exists result].
    + apply Nat.ltb_ge in H10. split.
      * intros [result' [_ Heq]]. exfalso. symmetry in Heq. revert Heq.
        apply append_fresh, resultLine_nonempty.
      * intros [Hlt | Hmax]; [lia | contradiction].
Qed.

End TrackedFacts.

(** * Runs of the two [scheduled] handlers *)
Module HandlerFacts.
Import Runtime RuntimeFacts.

(** Every run of the HTML reporter's handler. *)
Lemma html_scheduled_run (env : HtmlReporter.Env) (world : World (option HtmlReporter.Table)) :
  run (HtmlReporter.scheduled env) world 0
  = if negb (HtmlReporter.isContestPeriod (clock world 0))
    then ([EConsole LogLevel "not in contest period"], Returned tt)
    else if negb (HtmlReporter.is0Minute (clock world 1))
    then ([EConsole LogLevel "not 0 minute"], Returned tt)
    else match response world with
         | None =>
             ([EGet HtmlReporter.RANKING_PAGE_URL;
               EConsole ErrorLevel "Table not found"], Returned tt)
         | Some table =>
             match HtmlReporter.thead table with
             | None =>
                 ([EGet HtmlReporter.RANKING_PAGE_URL;
                   EConsole ErrorLevel "Header not found";
                   EPost (HtmlReporter.DISCORD_WEBHOOK_URL env) None], Returned tt)
             | Some headerCells =>
                 ([EGet HtmlReporter.RANKING_PAGE_URL;
                   EPost (HtmlReporter.DISCORD_WEBHOOK_URL env)
                     (Some (HtmlReporter.renderTable headerCells (HtmlReporter.tbody_tr table)))],
                  Returned tt)
             end
         end.
Proof.
  unfold HtmlReporter.scheduled, new_Date. cbn [bind run].
  destruct (negb (HtmlReporter.isContestPeriod (clock world 0))); [reflexivity |].
  cbn [bind run].
  destruct (negb (HtmlReporter.is0Minute (clock world 1))); [reflexivity |].
  unfold fetch. cbn [bind run].
  destruct (response world) as [table |]; [| reflexivity].
  unfold HtmlReporter.tableToMarkdown.
  destruct (HtmlReporter.thead table); reflexivity.
Qed.

(** Every run of the API reporter's handler. *)
Lemma api_scheduled_run (env : Reporter.Env) (world : World Reporter.APIResponse) :
  run (Reporter.scheduled env) world 0
  = if negb (Reporter.isContestPeriod (clock world 0))
    then ([EConsole LogLevel "not in contest period"], Returned tt)
    else match response world with
         | [] => ([EGet Reporter.RANKING_API_URL], Uncaught TypeError)
         | first :: _ =>
             ([EGet Reporter.RANKING_API_URL;
               EPost (Reporter.DISCORD_WEBHOOK_URL env)
                 (Some (Reporter.markdown
                          (fold_left Reporter.loopBody (response world) (Reporter.loopStart first))
                        ++ ("```" ++ nl)))],
              Returned tt)
         end.
Proof.
  unfold Reporter.scheduled, new_Date. cbn [bind run].
  destruct (negb (Reporter.isContestPeriod (clock world 0))); [reflexivity |].
  unfold fetch. cbn [bind run].
  destruct (response world) as [| first rest]; reflexivity.
Qed.

Lemma contest_window :
  HtmlReporter.CONTEST_START_AT = 1757073600000%Z /\
  HtmlReporter.CONTEST_END_AT = 1757332800000%Z /\
  Reporter.CONTEST_START_AT = 1757073600000%Z /\
  Reporter.CONTEST_END_AT = 1757332800000%Z.
Proof. repeat split; reflexivity. Qed.

Lemma html_isContestPeriod_spec (date : Date) :
  HtmlReporter.isContestPeriod date = true
  <-> (HtmlReporter.CONTEST_START_AT <= date <= HtmlReporter.CONTEST_END_AT)%Z.
Proof.
  unfold HtmlReporter.isContestPeriod.
  rewrite andb_true_iff, Z.geb_le, Z.leb_le. tauto.
Qed.

Lemma api_isContestPeriod_spec (date : Date) :
  Reporter.isContestPeriod date = true
  <-> (Reporter.CONTEST_START_AT <= date <= Reporter.CONTEST_END_AT)%Z.
Proof.
  unfold Reporter.isContestPeriod.
  rewrite andb_true_iff, Z.geb_le, Z.leb_le. tauto.
Qed.

End HandlerFacts.

(** * The lines of the rendered table as lines of the text *)
Module HtmlLineFacts.
Import Runtime RuntimeFacts HtmlReporter Vocabulary HtmlView HtmlFacts HtmlWidthFacts.

Lemma hasLineFeed_append (a b : string) :
  hasLineFeed (a ++ b) = hasLineFeed a || hasLineFeed b.
Proof.
  induction a as [| c a IH]; cbn [append hasLineFeed]; [reflexivity |].
  now rewrite IH, orb_assoc.
Qed.

Lemma hasLineFeed_repeat (s : string) (count : nat) :
  hasLineFeed s = false -> hasLineFeed (repeat s count) = false.
Proof.
  intros Hs. induction count as [| n IH]; cbn [repeat]; [reflexivity |].
  now rewrite hasLineFeed_append, Hs, IH.
Qed.

Lemma hasLineFeed_padEnd (s : string) (maxLength : nat) :
  hasLineFeed (padEnd s maxLength) = hasLineFeed s.
Proof.
  unfold padEnd. rewrite hasLineFeed_append, hasLineFeed_repeat by reflexivity.
  apply orb_false_r.
Qed.

Lemma hasLineFeed_join (sep : string) (l : list string) :
  hasLineFeed sep = false ->
  Forall (fun s => hasLineFeed s = false) l ->
  hasLineFeed (join sep l) = false.
Proof.
  intros Hsep Hl. unfold join.
  induction Hl as [| x l Hx Hl IH]; [reflexivity |].
  destruct l as [| y l]; [exact Hx |].
  change (String.concat sep (x :: y :: l))
    with (x ++ sep ++ String.concat sep (y :: l)).
  now rewrite !hasLineFeed_append, Hx, Hsep, IH.
Qed.

Lemma Forall_map_from {A B : Type} (P : B -> Prop) (f : A -> nat -> B) (k : nat) (l : list A) :
  (forall x j, In x l -> P (f x j)) -> Forall P (map_from f k l).
Proof.
  revert k. induction l as [| x l IH]; intros k H; cbn [map_from]; constructor.
  - apply H. now left.
  - apply IH. intros y j Hy. apply H. now right.
Qed.

(** A line of cells has a line feed only if one of the cells has. *)
Lemma hasLineFeed_cellsLine (ml : list jsval) (cells : list string) :
  Forall (fun s => hasLineFeed s = false) cells ->
  hasLineFeed (cellsLine ml cells) = false.
Proof.
  intros Hcells. unfold cellsLine, mapi.
  rewrite !hasLineFeed_append, hasLineFeed_join; [reflexivity | reflexivity |].
  apply Forall_map_from. intros cell j Hin.
  rewrite hasLineFeed_padEnd. rewrite Forall_forall in Hcells. now apply Hcells.
Qed.

Lemma hasLineFeed_separatorLine (ml : list jsval) (headerCells : list string) :
  hasLineFeed (separatorLine ml headerCells) = false.
Proof.
  unfold separatorLine, mapi.
  rewrite !hasLineFeed_append, hasLineFeed_join; [reflexivity | reflexivity |].
  apply Forall_map_from. intros cell j _. now apply hasLineFeed_repeat.
Qed.

Lemma splitLines_line (line rest : string) :
  hasLineFeed line = false ->
  splitLines (line ++ nl ++ rest) = line :: splitLines rest.
Proof.
  induction line as [| c line IH]; intros Hline.
  - reflexivity.
  - cbn [hasLineFeed] in Hline. apply orb_false_iff in Hline as [Hc Hline].
    cbn [append splitLines]. rewrite Hc.
    change (line ++ String (ascii_of_nat 10) rest) with (line ++ nl ++ rest).
    now rewrite (IH Hline).
Qed.

Lemma splitLines_unlines (lines : list string) :
  Forall (fun s => hasLineFeed s = false) lines ->
  splitLines (unlines lines) = lines.
Proof.
  intros H. induction H as [| line lines Hline H IH]; [reflexivity |].
  cbn [unlines]. now rewrite (splitLines_line _ _ Hline), IH.
Qed.

(** When no text of the table has a line feed in it, the lines the renderer
    writes between the fences are the lines of that part of the text. *)
Lemma table_lines_split (headerCells : list string) (rows : list Row) :
  Forall (fun s => hasLineFeed s = false) headerCells ->
  Forall (Forall (fun s => hasLineFeed s = false)) rows ->
  splitLines
    (unlines (cellsLine (tableWidths headerCells rows) headerCells
              :: separatorLine (tableWidths headerCells rows) headerCells
              :: map (cellsLine (tableWidths headerCells rows)) (shownRows 0 false rows)))
  = cellsLine (tableWidths headerCells rows) headerCells
    :: separatorLine (tableWidths headerCells rows) headerCells
    :: map (cellsLine (tableWidths headerCells rows)) (shownRows 0 false rows).
Proof.
  intros Hh Hrows. apply splitLines_unlines.
  constructor; [now apply hasLineFeed_cellsLine |].
  constructor; [apply hasLineFeed_separatorLine |].
  apply Forall_forall. intros line Hline.
  apply in_map_iff in Hline as [row [<- Hrow]].
  apply hasLineFeed_cellsLine.
  rewrite Forall_forall in Hrows. apply Hrows.
  now apply (shownRows_incl 0 false rows).
Qed.

End HtmlLineFacts.

(** * The claims of the specification *)
Module Claims.
Import Runtime RuntimeFacts Vocabulary VocabularyFacts Scenarios.
Import HtmlFacts HtmlWidthFacts HtmlLineFacts ApiFacts TrackedFacts HandlerFacts.

(** The rendered text of the HTML reporter is what the second loop has
    written after the last row, and the closing fence. *)
Lemma html_output_final (headerCells : list string) (rows : list HtmlReporter.Row) :
  HtmlReporter.tableToMarkdown (HtmlReporter.mkTable (Some headerCells) rows)
  = Ret (Some (HtmlReporter.markdown (HtmlView.renderStateAt headerCells rows (length rows))
               ++ "```" ++ nl)).
Proof.
  unfold HtmlReporter.tableToMarkdown. cbn [HtmlReporter.thead HtmlReporter.tbody_tr].
  rewrite renderTable_unfold. unfold HtmlView.renderStateAt.
  now rewrite forEach_firstn_all.
Qed.

(** The rendered text of the API reporter is what the loop has written after
    the last result, and the closing fence. *)
Lemma api_output_final (first : Reporter.ResultItem) (rest : list Reporter.ResultItem) :
  @Reporter.responseToMarkdown Reporter.APIResponse (first :: rest)
  = Ret (Reporter.markdown (ApiView.stateAt first (first :: rest) (length (first :: rest)))
         ++ "```" ++ nl).
Proof.
  unfold Reporter.responseToMarkdown, ApiView.stateAt. now rewrite firstn_all.
Qed.

(** The tracked row of Scenario B is its row of index 12. *)
Lemma scenarioB_cutoff :
  HtmlView.cutoffIndex rowsB = Some 12 /\ ApiView.cutoffIndex apiB = Some 12.
Proof. split; reflexivity. Qed.

(** What the HTML reporter renders for Scenario B: the rows of index 0 to 11,
    without the tracked row of index 12. *)
Example scenarioB_html_output :
  HtmlReporter.tableToMarkdown tableB
  = Ret (Some (unlines
                 [ "Maximum is **13th**";
                   "https://icfpcontest2025.github.io/aedificium.html";
                   "```markdown";
                   "| Rank | Team    | Score |";
                   "| ---- | ------- | ----- |";
                   "| 1    | Team    | 150   |";
                   "| 2    | Team    | 140   |";
                   "| 3    | Team    | 130   |";
                   "| 4    | Team    | 120   |";
                   "| 5    | Team    | 110   |";
                   "| 6    | Team    | 100   |";
                   "| 7    | Team    | 90    |";
                   "| 8    | Team    | 80    |";
                   "| 9    | Team    | 70    |";
                   "| 10   | Team    | 60    |";
                   "| 11   | Team    | 50    |";
                   "| 12   | Team    | 40    |";
                   "```" ])).
Proof. vm_compute. reflexivity. Qed.

(** What the API reporter renders for Scenario B: the rows of index 0 to 9 and
    the tracked row of index 12. *)
Example scenarioB_api_output :
  @Reporter.responseToMarkdown Reporter.APIResponse apiB
  = Ret (unlines
           [ "```";
             "| Rank  | Team Name                                                    | Score |";
             "| ----- | ------------------------------------------------------------ | ----- |";
             "| 1     | Team                                                         | 150   |";
             "| 2     | Team                                                         | 140   |";
             "| 3     | Team                                                         | 130   |";
             "| 4     | Team                                                         | 120   |";
             "| 5     | Team                                                         | 110   |";
             "| 6     | Team                                                         | 100   |";
             "| 7     | Team                                                         | 90    |";
             "| 8     | Team                                                         | 80    |";
             "| 9     | Team                                                         | 70    |";
             "| 10    | Team                                                         | 60    |";
             "| 13    | Maximum                                                      | 30    |";
             "```" ]).
Proof. vm_compute. reflexivity. Qed.

(** C1, as the specification states it, fails on Scenario B in both reporters:
    the tracked entry sits at index 12, so the stated policy includes the rows
    of index 10, 11 and 12; the HTML reporter leaves out the tracked row of
    index 12 itself, and the API reporter leaves out the rows of index 10 and
    11. *)
Lemma truncation_policy_counterexample :
  (HtmlView.cutoffIndex rowsB = Some 12
   /\ (12 <= 10 \/ atMost 12 (HtmlView.cutoffIndex rowsB))
   /\ ~ HtmlView.rowIncluded headerA rowsB 12)
  /\ (ApiView.cutoffIndex apiB = Some 12
      /\ (10 <= 10 \/ atMost 10 (ApiView.cutoffIndex apiB))
      /\ ~ ApiView.rowIncluded apiB 10
      /\ ~ ApiView.rowIncluded apiB 11).
Proof.
  destruct scenarioB_cutoff as [Hh Ha].
  split; [split; [exact Hh |] | split; [exact Ha |]].
  - split; [right; rewrite Hh; cbn; lia |].
    rewrite (rowIncluded_iff headerA rowsB 12) by (cbn; lia).
    rewrite Hh. cbn [below]. lia.
  - split; [left; lia |]. split.
    + rewrite (api_rowIncluded_iff apiB 10 _ eq_refl).
      intros [H | H]; [lia | discriminate H].
    + rewrite (api_rowIncluded_iff apiB 11 _ eq_refl).
      intros [H | H]; [lia | discriminate H].
Qed.

(** C1 (amended): the rows the rendered table includes. In the HTML reporter,
    for every row index [i] other than that of a first tracked row beyond
    index 10, row [i] is included if and only if [i <= 10] or
    [i <= cutoffIndex], where [cutoffIndex] is the index of the first tracked
    row, infinite when there is none. In the API reporter, row [i] is included
    if and only if [i < 10] or the entry of index [i] is itself named
    ["Maximum"]. In both, the rendered text is what the loop has written
    after the last row, followed by the closing fence. *)
Theorem truncation_policy :
  (forall (headerCells : list string) (rows : list HtmlReporter.Row),
      HtmlReporter.tableToMarkdown (HtmlReporter.mkTable (Some headerCells) rows)
      = Ret (Some (HtmlReporter.markdown
                     (HtmlView.renderStateAt headerCells rows (length rows))
                   ++ "```" ++ nl))
      /\ forall i : nat,
          i < length rows ->
          ~ (HtmlView.cutoffIndex rows = Some i /\ 10 < i) ->
          (HtmlView.rowIncluded headerCells rows i
           <-> i <= 10 \/ atMost i (HtmlView.cutoffIndex rows)))
  /\ (forall (first : Reporter.ResultItem) (rest : list Reporter.ResultItem),
         @Reporter.responseToMarkdown Reporter.APIResponse (first :: rest)
         = Ret (Reporter.markdown
                  (ApiView.stateAt first (first :: rest) (length (first :: rest)))
                ++ "```" ++ nl)
         /\ forall (i : nat) (result : Reporter.ResultItem),
             nth_error (first :: rest) i = Some result ->
             (ApiView.rowIncluded (first :: rest) i
              <-> i < 10 \/ Reporter.teamName result = "Maximum")).
Proof.
  split.
  - intros headerCells rows. split; [apply html_output_final |].
    intros i Hi Hslip. rewrite (rowIncluded_iff headerCells rows i Hi).
    destruct (HtmlView.cutoffIndex rows) as [c |]; cbn [below atMost]; [| tauto].
    split; intros [H | H]; try lia.
    destruct (Nat.eq_dec i c) as [-> | Hne]; [| lia].
    destruct (Nat.le_gt_cases c 10); [lia |].
    exfalso. apply Hslip. split; [reflexivity | lia].
  - intros first rest. split; [apply api_output_final |].
    intros i result Hx. now apply api_rowIncluded_iff.
Qed.

(** The row of index 11 of Scenario B, between the top rows and the tracked
    row, and the tracked result of index 12. *)
Lemma truncation_policy_witness :
  (11 < length rowsB
   /\ ~ (HtmlView.cutoffIndex rowsB = Some 11 /\ 10 < 11)
   /\ (HtmlView.rowIncluded headerA rowsB 11
       <-> 11 <= 10 \/ atMost 11 (HtmlView.cutoffIndex rowsB)))
  /\ (nth_error apiB 12 = Some (Reporter.mkResult "Maximum" "" 30)
      /\ (ApiView.rowIncluded apiB 12
          <-> 12 < 10 \/ Reporter.teamName (Reporter.mkResult "Maximum" "" 30) = "Maximum")).
Proof.
  assert (H1 : 11 < length rowsB) by (cbn; lia).
  assert (H2 : ~ (HtmlView.cutoffIndex rowsB = Some 11 /\ 10 < 11))
    by (intros [H _]; discriminate H).
  split.
  - split; [exact H1 | split; [exact H2 |]].
    exact (proj2 (proj1 truncation_policy headerA rowsB) 11 H1 H2).
  - split; [reflexivity |].
    exact (proj2 (proj2 truncation_policy (Reporter.mkResult "Team" "" 150) (tl apiB))
             12 _ eq_refl).
Defined.

(** C2: on a non-empty sequence the rank engine of the API reporter starts
    from rank 1 and from the score of the first entry as [prevScore]; at each
    entry it increments the rank and sets [prevScore] to the entry's score
    exactly when that score differs from [prevScore], and assigns the rank it
    then holds. So the first entry has rank 1, the rank of the next entry is
    the rank of this one plus 1 when the two scores differ and the same rank
    when they are equal, and the ranks never go down. *)
Theorem rank_engine (results : Reporter.APIResponse) :
  results <> [] ->
  (ApiView.rankAt results 0 = Some 1
   /\ ApiView.prevScoreAt results 0 = Some (nth 0 (ApiView.scores results) 0%Z))
  /\ (forall (i : nat) (result : Reporter.ResultItem),
         nth_error results i = Some result ->
         exists (r : nat) (p : Z),
           ApiView.rankAt results i = Some r
           /\ ApiView.prevScoreAt results i = Some p
           /\ ApiView.rankAt results (S i)
              = Some (if (Reporter.score result =? p)%Z then r else r + 1)
           /\ ApiView.prevScoreAt results (S i)
              = Some (if (Reporter.score result =? p)%Z then p else Reporter.score result)
           /\ nth_error (ApiView.ranks results) i
              = Some (if (Reporter.score result =? p)%Z then r else r + 1))
  /\ nth 0 (ApiView.ranks results) 0 = 1
  /\ (forall i : nat,
         S i < length results ->
         nth (S i) (ApiView.ranks results) 0
         = if (nth (S i) (ApiView.scores results) 0 =? nth i (ApiView.scores results) 0)%Z
           then nth i (ApiView.ranks results) 0
           else nth i (ApiView.ranks results) 0 + 1)
  /\ (forall i j : nat,
         i <= j -> j < length results ->
         nth i (ApiView.ranks results) 0 <= nth j (ApiView.ranks results) 0).
Proof.
  intros Hne. destruct results as [| first rest]; [contradiction |].
  split; [split; reflexivity |].
  split; [| split; [apply ranks_first | split; [apply ranks_next | apply ranks_monotone]]].
  intros i result Hx.
  exists (Reporter.rank (ApiView.stateAt first (first :: rest) i)),
    (Reporter.prevScore (ApiView.stateAt first (first :: rest) i)).
  unfold ApiView.rankAt, ApiView.prevScoreAt.
  rewrite (stateAt_S _ _ _ _ Hx), loopBody_rank, loopBody_prevScore.
  repeat split.
  assert (Hi : i < length (first :: rest)) by (apply nth_error_Some; congruence).
  rewrite <- loopBody_rank, <- (stateAt_S _ _ _ _ Hx), <- (ranks_nth first rest i Hi).
  apply nth_error_nth'. now rewrite ranks_length.
Qed.

(** The ranks of Scenario A are 1, 2, 2, 3: the rank goes up at the entry of
    index 1, whose score 90 differs from the 100 before it, and stays at the
    entry of index 2, whose score is 90 again. *)
Lemma rank_engine_witness :
  apiA <> []
  /\ ApiView.ranks apiA = [1; 2; 2; 3]
  /\ nth 0 (ApiView.ranks apiA) 0 = 1
  /\ (nth_error apiA 1 = Some (Reporter.mkResult "Maximum" "" 90)
      /\ exists (r : nat) (p : Z),
          ApiView.rankAt apiA 1 = Some r
          /\ ApiView.prevScoreAt apiA 1 = Some p
          /\ ApiView.rankAt apiA 2 = Some (if (90 =? p)%Z then r else r + 1)
          /\ ApiView.prevScoreAt apiA 2 = Some (if (90 =? p)%Z then p else 90%Z)
          /\ nth_error (ApiView.ranks apiA) 1 = Some (if (90 =? p)%Z then r else r + 1))
  /\ (1 < length apiA
      /\ nth 1 (ApiView.ranks apiA) 0 = nth 0 (ApiView.ranks apiA) 0 + 1)
  /\ (2 < length apiA
      /\ nth 2 (ApiView.ranks apiA) 0 = nth 1 (ApiView.ranks apiA) 0)
  /\ (0 <= 3 /\ 3 < length apiA
      /\ nth 0 (ApiView.ranks apiA) 0 <= nth 3 (ApiView.ranks apiA) 0).
Proof.
  assert (Hne : apiA <> []) by discriminate.
  assert (H1 : 1 < length apiA) by (cbn; lia).
  assert (H2 : 2 < length apiA) by (cbn; lia).
  assert (H3 : 3 < length apiA) by (cbn; lia).
  assert (H03 : 0 <= 3) by lia.
  pose proof (rank_engine apiA Hne) as [_ [Hstep [H0 [Hnext Hmono]]]].
  split; [exact Hne |]. split; [reflexivity |]. split; [exact H0 |].
  split; [split; [reflexivity | exact (Hstep 1 _ eq_refl)] |].
  split; [split; [exact H1 | exact (Hnext 0 H1)] |].
  split; [split; [exact H2 | exact (Hnext 1 H2)] |].
  split; [exact H03 |]. split; [exact H3 |].
  exact (Hmono 0 3 H03 H3).
Defined.

(** C5: on scores that go down along the sequence, the ranks of the rank
    engine never go down, and two entries have the same rank if and only if
    they have the same score. *)
Theorem rank_invariant (results : Reporter.APIResponse) :
  ApiView.descending (ApiView.scores results) = true ->
  (forall i j : nat,
      i <= j -> j < length results ->
      nth i (ApiView.ranks results) 0 <= nth j (ApiView.ranks results) 0)
  /\ (forall i j : nat,
         i < length results -> j < length results ->
         (nth i (ApiView.ranks results) 0 = nth j (ApiView.ranks results) 0
          <-> nth i (ApiView.scores results) 0%Z = nth j (ApiView.scores results) 0%Z)).
Proof.
  intros Hd. split; [apply ranks_monotone |].
  intros i j Hi Hj.
  destruct (Nat.le_ge_cases i j) as [Hij | Hji].
  - exact (proj2 (ranks_equal_iff results i j Hd Hij Hj)).
  - pose proof (proj2 (ranks_equal_iff results j i Hd Hji Hi)) as H.
    split; intros E; symmetry; apply H; now symmetry.
Qed.

(** In Scenario A the two entries of score 90 share rank 2, and the entries of
    scores 100 and 90 have different ranks. *)
Lemma rank_invariant_witness :
  ApiView.descending (ApiView.scores apiA) = true
  /\ (nth 1 (ApiView.ranks apiA) 0 = nth 2 (ApiView.ranks apiA) 0
      <-> nth 1 (ApiView.scores apiA) 0%Z = nth 2 (ApiView.scores apiA) 0%Z)
  /\ (nth 0 (ApiView.ranks apiA) 0 = nth 1 (ApiView.ranks apiA) 0
      <-> nth 0 (ApiView.scores apiA) 0%Z = nth 1 (ApiView.scores apiA) 0%Z)
  /\ nth 0 (ApiView.ranks apiA) 0 <= nth 3 (ApiView.ranks apiA) 0.
Proof.
  assert (Hd : ApiView.descending (ApiView.scores apiA) = true) by reflexivity.
  pose proof (rank_invariant apiA Hd) as [Hmono Hiff].
  split; [exact Hd |]. split; [| split].
  - exact (Hiff 1 2 ltac:(cbn; lia) ltac:(cbn; lia)).
  - exact (Hiff 0 1 ltac:(cbn; lia) ltac:(cbn; lia)).
  - exact (Hmono 0 3 ltac:(lia) ltac:(cbn; lia)).
Defined.

(** C6, as the specification states it, fails in the HTML reporter: the row
    ["1"; "Alpha"; "Maximum"], whose name cell is ["Alpha"], is treated as the
    tracked row (its score cell matches), and it gets the highlight line; no
    choice of a name column makes the match depend on that column alone. *)
Lemma tracked_match_counterexample :
  nth 1 rowScoreMaximum "" = "Alpha"
  /\ HtmlReporter.isMaximumRow rowScoreMaximum = true
  /\ HtmlReporter.tableToMarkdown (HtmlReporter.mkTable (Some headerA) [rowScoreMaximum])
     = Ret (Some (unlines
                    [ "Maximum is **1th**";
                      "https://icfpcontest2025.github.io/aedificium.html";
                      "```markdown";
                      "| Rank | Team  | Score   |";
                      "| ---- | ----- | ------- |";
                      "| 1    | Alpha | Maximum |";
                      "```" ]))
  /\ ~ (exists nameColumn : nat,
          forall row : HtmlReporter.Row,
            HtmlReporter.isMaximumRow row = true
            <-> nth_error row nameColumn = Some "Maximum").
Proof.
  split; [reflexivity |]. split; [reflexivity |]. split; [reflexivity |].
  intros [c H].
  destruct c as [| c].
  - pose proof (proj1 (H ["Other"; "Maximum"]) eq_refl) as E. discriminate E.
  - pose proof (proj1 (H ["Maximum"]) eq_refl) as E. destruct c; discriminate E.
Qed.

(** C6 (amended): the match is exact, case-sensitive equality of a text with
    ["Maximum"]. In the API reporter an entry is treated as the tracked entry
    if and only if its [teamName] is ["Maximum"], whatever its other fields:
    beyond the first ten entries it is included exactly then. In the HTML
    reporter a row is treated as the tracked row if and only if at least one
    of its cells, in any column, has the text ["Maximum"]. *)
Theorem tracked_entry_match :
  (forall text : string, HtmlReporter.isMaximum text = true <-> text = "Maximum")
  /\ HtmlReporter.isMaximum "maximum" = false
  /\ HtmlReporter.isMaximum "MAXIMUM" = false
  /\ HtmlReporter.isMaximum "Maximum " = false
  /\ (forall row : HtmlReporter.Row,
         HtmlReporter.isMaximumRow row = true
         <-> exists cell : string, In cell row /\ cell = "Maximum")
  /\ (forall (results : Reporter.APIResponse) (i : nat) (result : Reporter.ResultItem),
         nth_error results i = Some result ->
         10 <= i ->
         (ApiView.rowIncluded results i <-> Reporter.teamName result = "Maximum")).
Proof.
  split; [apply isMaximum_spec |].
  do 3 (split; [reflexivity |]).
  split; [apply isMaximumRow_spec |].
  intros results i result Hx Hi.
  rewrite (api_rowIncluded_iff results i result Hx).
  split; [intros [H | H]; [lia | exact H] | now right].
Qed.

(** In Scenario B the tracked entry of index 12 is included and the entry of
    index 10, of another name, is not. *)
Lemma tracked_entry_match_witness :
  (nth_error apiB 12 = Some (Reporter.mkResult "Maximum" "" 30)
   /\ 10 <= 12
   /\ (ApiView.rowIncluded apiB 12
       <-> Reporter.teamName (Reporter.mkResult "Maximum" "" 30) = "Maximum"))
  /\ (nth_error apiB 10 = Some (Reporter.mkResult "Team" "" 50)
      /\ 10 <= 10
      /\ (ApiView.rowIncluded apiB 10
          <-> Reporter.teamName (Reporter.mkResult "Team" "" 50) = "Maximum")).
Proof.
  pose proof tracked_entry_match as [_ [_ [_ [_ [_ H]]]]].
  split.
  - split; [reflexivity |]. split; [lia |].
    exact (H apiB 12 _ eq_refl ltac:(lia)).
  - split; [reflexivity |]. split; [lia |].
    exact (H apiB 10 _ eq_refl ltac:(lia)).
Defined.

(** The highlight line is empty or one line of the stated form. *)
Lemma highlight_form (maximumRank : option string) :
  HtmlView.highlight maximumRank = ""
  \/ exists rank : string,
      maximumRank = Some rank /\ rank <> ""
      /\ HtmlView.highlight maximumRank = "Maximum is **" ++ rank ++ "th**" ++ nl.
Proof.
  destruct maximumRank as [rank |]; [| now left].
  unfold HtmlView.highlight, truthy.
  destruct (rank =? "") eqn:E; [now left | right].
  apply String.eqb_neq in E. now exists rank.
Qed.

(** C7, as the specification states it, fails when the first cell of the
    tracked row is empty: the table has a tracked row, and the rendered text
    starts with the line of the page address, without a highlight line. *)
Lemma highlight_line_counterexample :
  existsb HtmlReporter.isMaximumRow rowsEmptyRank = true
  /\ HtmlReporter.tableToMarkdown tableEmptyRank
     = Ret (Some (unlines
                    [ "https://icfpcontest2025.github.io/aedificium.html";
                      "```markdown";
                      "| Rank | Team    | Score |";
                      "| ---- | ------- | ----- |";
                      "| 1    | Alpha   | 100   |";
                      "|      | Maximum | 90    |";
                      "```" ])).
Proof. split; reflexivity. Qed.

(** C7 (amended): in the HTML reporter, if a tracked row exists in the full
    row sequence and the first-column text of the last tracked row is not
    empty, the rendered text starts with the line
    ["Maximum is **<rank>th**"], where [<rank>] is that text, followed by the
    line of the page address; when that text is empty, or there is no tracked
    row, the rendered text starts with the line of the page address. For the
    Scenario A table the output has the highlight line ["Maximum is **2th**"]
    and all 4 rows. *)
Theorem highlight_line :
  (forall (headerCells : list string) (rows : list HtmlReporter.Row)
          (row : HtmlReporter.Row) (rank : string),
      findLast HtmlReporter.isMaximumRow rows = Some row ->
      hd_error row = Some rank ->
      rank <> "" ->
      exists rest : string,
        HtmlReporter.tableToMarkdown (HtmlReporter.mkTable (Some headerCells) rows)
        = Ret (Some ("Maximum is **" ++ rank ++ "th**" ++ nl
                     ++ HtmlReporter.RANKING_PAGE_URL ++ nl ++ rest)))
  /\ (forall (headerCells : list string) (rows : list HtmlReporter.Row),
         existsb HtmlReporter.isMaximumRow rows = false
         \/ (exists row : HtmlReporter.Row,
               findLast HtmlReporter.isMaximumRow rows = Some row
               /\ hd_error row = Some "") ->
         exists rest : string,
           HtmlReporter.tableToMarkdown (HtmlReporter.mkTable (Some headerCells) rows)
           = Ret (Some (HtmlReporter.RANKING_PAGE_URL ++ nl ++ rest)))
  /\ HtmlReporter.tableToMarkdown tableA
     = Ret (Some (unlines
                    [ "Maximum is **2th**";
                      "https://icfpcontest2025.github.io/aedificium.html";
                      "```markdown";
                      "| Rank | Team    | Score |";
                      "| ---- | ------- | ----- |";
                      "| 1    | Alpha   | 100   |";
                      "| 2    | Maximum | 90    |";
                      "| 2    | Beta    | 90    |";
                      "| 3    | Gamma   | 80    |";
                      "```" ])).
Proof.
  split; [| split; [| reflexivity]].
  - intros headerCells rows row rank Hlast Hhd Hrank.
    rewrite tableToMarkdown_output, tableRank_spec, Hlast, Hhd.
    unfold HtmlView.highlight, truthy.
    apply String.eqb_neq in Hrank. rewrite Hrank. cbn [negb].
    eexists. rewrite !append_assoc. reflexivity.
  - intros headerCells rows H.
    rewrite tableToMarkdown_output, tableRank_spec.
    destruct H as [Hnone | [row [Hlast Hhd]]].
    + apply findLast_None in Hnone. rewrite Hnone. eexists. reflexivity.
    + rewrite Hlast, Hhd. eexists. reflexivity.
Qed.

(** The tracked row of Scenario A, whose first cell reads 2, and the table
    whose tracked row has an empty first cell. *)
Lemma highlight_line_witness :
  (findLast HtmlReporter.isMaximumRow rowsA = Some ["2"; "Maximum"; "90"]
   /\ hd_error ["2"; "Maximum"; "90"] = Some "2"
   /\ "2" <> ""
   /\ exists rest : string,
       HtmlReporter.tableToMarkdown (HtmlReporter.mkTable (Some headerA) rowsA)
       = Ret (Some ("Maximum is **" ++ "2" ++ "th**" ++ nl
                    ++ HtmlReporter.RANKING_PAGE_URL ++ nl ++ rest)))
  /\ ((existsb HtmlReporter.isMaximumRow rowsEmptyRank = false
       \/ exists row : HtmlReporter.Row,
           findLast HtmlReporter.isMaximumRow rowsEmptyRank = Some row
           /\ hd_error row = Some "")
      /\ exists rest : string,
          HtmlReporter.tableToMarkdown (HtmlReporter.mkTable (Some headerA) rowsEmptyRank)
          = Ret (Some (HtmlReporter.RANKING_PAGE_URL ++ nl ++ rest))).
Proof.
  assert (Hne : "2" <> "") by discriminate.
  assert (Hempty : existsb HtmlReporter.isMaximumRow rowsEmptyRank = false
                   \/ exists row : HtmlReporter.Row,
                       findLast HtmlReporter.isMaximumRow rowsEmptyRank = Some row
                       /\ hd_error row = Some "").
  { right. exists [""; "Maximum"; "90"]. split; reflexivity. }
  split.
  - split; [reflexivity |]. split; [reflexivity |]. split; [exact Hne |].
    exact (proj1 highlight_line headerA rowsA ["2"; "Maximum"; "90"] "2"
             eq_refl eq_refl Hne).
  - split; [exact Hempty |].
    exact (proj1 (proj2 highlight_line) headerA rowsEmptyRank Hempty).
Defined.

(** C10: every text the HTML reporter renders has, after the highlight line
    when there is one and before the opening code fence, a line that consists
    of the address of the ranking page. *)
Theorem ranking_page_line (table : HtmlReporter.Table) (md : string) :
  HtmlReporter.tableToMarkdown table = Ret (Some md) ->
  HtmlReporter.RANKING_PAGE_URL = "https://icfpcontest2025.github.io/aedificium.html"
  /\ exists highlightLine rest : string,
      md = highlightLine
           ++ HtmlReporter.RANKING_PAGE_URL ++ nl
           ++ "```markdown" ++ nl
           ++ rest
      /\ (highlightLine = ""
          \/ exists rank : string,
              highlightLine = "Maximum is **" ++ rank ++ "th**" ++ nl).
Proof.
  intros Hmd. split; [reflexivity |].
  destruct table as [[headerCells |] rows].
  - rewrite tableToMarkdown_output in Hmd. injection Hmd as <-.
    eexists. eexists. split; [reflexivity |].
    destruct (highlight_form (HtmlView.tableRank headerCells rows))
      as [H | [rank [_ [_ H]]]]; [now left | right; now exists rank].
  - discriminate Hmd.
Qed.

(** The rendered text of Scenario A. *)
Lemma ranking_page_line_witness :
  HtmlReporter.tableToMarkdown tableA
  = Ret (Some (HtmlReporter.renderTable headerA rowsA))
  /\ exists highlightLine rest : string,
      HtmlReporter.renderTable headerA rowsA
      = highlightLine
        ++ HtmlReporter.RANKING_PAGE_URL ++ nl
        ++ "```markdown" ++ nl
        ++ rest
      /\ (highlightLine = ""
          \/ exists rank : string,
              highlightLine = "Maximum is **" ++ rank ++ "th**" ++ nl).
Proof.
  split; [reflexivity |].
  exact (proj2 (ranking_page_line tableA (HtmlReporter.renderTable headerA rowsA) eq_refl)).
Defined.

(** In a table whose body rows each have one cell per header column, the
    width of every column is the greatest text length of the column, the
    lines the renderer writes (the header line, the separator line and one
    line per row) all have the same length, every printed cell is the cell's
    whole text followed by spaces, and, when no text of the table has a line
    feed in it, the written lines are the lines of the text between the
    fences. *)
Lemma written_lines_aligned (headerCells : list string) (rows : list HtmlReporter.Row) :
  (forall row : HtmlReporter.Row, In row rows -> length row = length headerCells) ->
  (forall j : nat,
      j < length headerCells ->
      array_get (HtmlView.tableWidths headerCells rows) j
      = Num (list_max (String.length (nth j headerCells "")
                       :: map (fun row => String.length (nth j row "")) rows)))
  /\ HtmlReporter.tableToMarkdown (HtmlReporter.mkTable (Some headerCells) rows)
     = Ret (Some (HtmlView.highlight (HtmlView.tableRank headerCells rows)
                  ++ HtmlReporter.RANKING_PAGE_URL ++ nl
                  ++ "```markdown" ++ nl
                  ++ unlines
                       (HtmlReporter.cellsLine (HtmlView.tableWidths headerCells rows) headerCells
                        :: HtmlReporter.separatorLine (HtmlView.tableWidths headerCells rows) headerCells
                        :: map (HtmlReporter.cellsLine (HtmlView.tableWidths headerCells rows))
                             (HtmlView.shownRows 0 false rows))
                  ++ "```" ++ nl))
  /\ Forall (fun line : string =>
               String.length line
               = HtmlView.lineLength
                   (map (HtmlView.columnWidth headerCells rows) (seq 0 (length headerCells))))
       (HtmlReporter.cellsLine (HtmlView.tableWidths headerCells rows) headerCells
        :: HtmlReporter.separatorLine (HtmlView.tableWidths headerCells rows) headerCells
        :: map (HtmlReporter.cellsLine (HtmlView.tableWidths headerCells rows)) rows)
  /\ incl (HtmlView.shownRows 0 false rows) rows
  /\ (forall cells : list string,
         cells = headerCells \/ In cells rows ->
         HtmlReporter.cellsLine (HtmlView.tableWidths headerCells rows) cells
         = "| " ++ join " | "
                     (map (fun j => padEnd (nth j cells "") (HtmlView.columnWidth headerCells rows j))
                        (seq 0 (length headerCells)))
           ++ " |"
         /\ forall j : nat,
             j < length headerCells ->
             String.length (nth j cells "") <= HtmlView.columnWidth headerCells rows j
             /\ prefix (nth j cells "")
                  (padEnd (nth j cells "") (HtmlView.columnWidth headerCells rows j)) = true
             /\ String.length (padEnd (nth j cells "") (HtmlView.columnWidth headerCells rows j))
                = HtmlView.columnWidth headerCells rows j)
  /\ (Forall (fun s => HtmlView.hasLineFeed s = false) headerCells ->
      Forall (Forall (fun s => HtmlView.hasLineFeed s = false)) rows ->
      HtmlView.splitLines
        (unlines
           (HtmlReporter.cellsLine (HtmlView.tableWidths headerCells rows) headerCells
            :: HtmlReporter.separatorLine (HtmlView.tableWidths headerCells rows) headerCells
            :: map (HtmlReporter.cellsLine (HtmlView.tableWidths headerCells rows))
                 (HtmlView.shownRows 0 false rows)))
      = HtmlReporter.cellsLine (HtmlView.tableWidths headerCells rows) headerCells
        :: HtmlReporter.separatorLine (HtmlView.tableWidths headerCells rows) headerCells
        :: map (HtmlReporter.cellsLine (HtmlView.tableWidths headerCells rows))
             (HtmlView.shownRows 0 false rows)).
Proof.
  intros Hall.
  split; [intros j Hj; now apply tableWidths_get |].
  split; [apply tableToMarkdown_output |].
  split; [| split; [apply shownRows_incl | split; [| apply table_lines_split]]].
  - constructor; [apply length_cellsLine_table; [exact Hall | now left] |].
    constructor.
    + rewrite length_separatorLine. reflexivity.
    + apply Forall_forall. intros line Hline.
      apply in_map_iff in Hline as [row [<- Hrow]].
      apply length_cellsLine_table; [exact Hall | now right].
  - intros cells Hcells.
    assert (Hlen : length cells = length headerCells)
      by (destruct Hcells as [-> | Hin]; [reflexivity | now apply Hall]).
    split; [rewrite cellsLine_cells, Hlen; reflexivity |].
    intros j Hj.
    pose proof (cell_fits headerCells rows cells j Hall Hcells Hj) as Hfit.
    split; [exact Hfit |]. split; [apply padEnd_keeps_text |].
    rewrite length_padEnd. lia.
Qed.

(** C8, as the specification states it, fails when a cell holds a line feed:
    in the table with the header Rank, Team and the rows 1, Ab<LF>Cd and
    2, Zed, every row has one cell per header column, and the lines of the
    text between the fences have the lengths 16, 16, 11, 4 and 16. *)
Lemma column_widths_counterexample :
  length MoreVocabulary.headerLineFeed = 2
  /\ map (@length string) MoreVocabulary.rowsLineFeed = [2; 2]
  /\ HtmlReporter.tableToMarkdown MoreVocabulary.tableLineFeed
     = Ret (Some (HtmlReporter.RANKING_PAGE_URL ++ nl
                  ++ "```markdown" ++ nl
                  ++ unlines
                       (HtmlReporter.cellsLine
                          (HtmlView.tableWidths MoreVocabulary.headerLineFeed MoreVocabulary.rowsLineFeed)
                          MoreVocabulary.headerLineFeed
                        :: HtmlReporter.separatorLine
                             (HtmlView.tableWidths MoreVocabulary.headerLineFeed MoreVocabulary.rowsLineFeed)
                             MoreVocabulary.headerLineFeed
                        :: map (HtmlReporter.cellsLine
                                  (HtmlView.tableWidths MoreVocabulary.headerLineFeed
                                     MoreVocabulary.rowsLineFeed))
                             MoreVocabulary.rowsLineFeed)
                  ++ "```" ++ nl))
  /\ HtmlView.splitLines
       (unlines
          (HtmlReporter.cellsLine
             (HtmlView.tableWidths MoreVocabulary.headerLineFeed MoreVocabulary.rowsLineFeed)
             MoreVocabulary.headerLineFeed
           :: HtmlReporter.separatorLine
                (HtmlView.tableWidths MoreVocabulary.headerLineFeed MoreVocabulary.rowsLineFeed)
                MoreVocabulary.headerLineFeed
           :: map (HtmlReporter.cellsLine
                     (HtmlView.tableWidths MoreVocabulary.headerLineFeed
                        MoreVocabulary.rowsLineFeed))
                MoreVocabulary.rowsLineFeed))
     = [ "| Rank | Team  |";
         "| ---- | ----- |";
         "| 1    | Ab";
         "Cd |";
         "| 2    | Zed   |" ]
  /\ map String.length
       [ "| Rank | Team  |"; "| ---- | ----- |"; "| 1    | Ab"; "Cd |"; "| 2    | Zed   |" ]
     = [16; 16; 11; 4; 16].
Proof. repeat split; reflexivity. Qed.

(** C8 (amended): in the HTML reporter, for a table whose body rows each have
    one cell per header column and none of whose header or cell texts holds a
    line feed, the printed width of every column is the greatest text length
    over the header label and all body cells of the column, the rows that the
    truncation leaves out included; the lines of the rendered text between
    the fence markers are the header line, the separator line and one line
    per rendered row, all of one and the same length; and every printed cell
    is the cell's whole text followed by spaces. *)
Theorem column_widths (headerCells : list string) (rows : list HtmlReporter.Row) :
  (forall row : HtmlReporter.Row, In row rows -> length row = length headerCells) ->
  Forall (fun s => HtmlView.hasLineFeed s = false) headerCells ->
  Forall (Forall (fun s => HtmlView.hasLineFeed s = false)) rows ->
  (forall j : nat,
      j < length headerCells ->
      array_get (HtmlView.tableWidths headerCells rows) j
      = Num (list_max (String.length (nth j headerCells "")
                       :: map (fun row => String.length (nth j row "")) rows)))
  /\ HtmlReporter.tableToMarkdown (HtmlReporter.mkTable (Some headerCells) rows)
     = Ret (Some (HtmlView.highlight (HtmlView.tableRank headerCells rows)
                  ++ HtmlReporter.RANKING_PAGE_URL ++ nl
                  ++ "```markdown" ++ nl
                  ++ unlines
                       (HtmlReporter.cellsLine (HtmlView.tableWidths headerCells rows) headerCells
                        :: HtmlReporter.separatorLine (HtmlView.tableWidths headerCells rows) headerCells
                        :: map (HtmlReporter.cellsLine (HtmlView.tableWidths headerCells rows))
                             (HtmlView.shownRows 0 false rows))
                  ++ "```" ++ nl))
  /\ HtmlView.splitLines
       (unlines
          (HtmlReporter.cellsLine (HtmlView.tableWidths headerCells rows) headerCells
           :: HtmlReporter.separatorLine (HtmlView.tableWidths headerCells rows) headerCells
           :: map (HtmlReporter.cellsLine (HtmlView.tableWidths headerCells rows))
                (HtmlView.shownRows 0 false rows)))
     = HtmlReporter.cellsLine (HtmlView.tableWidths headerCells rows) headerCells
       :: HtmlReporter.separatorLine (HtmlView.tableWidths headerCells rows) headerCells
       :: map (HtmlReporter.cellsLine (HtmlView.tableWidths headerCells rows))
            (HtmlView.shownRows 0 false rows)
  /\ Forall (fun line : string =>
               String.length line
               = HtmlView.lineLength
                   (map (HtmlView.columnWidth headerCells rows) (seq 0 (length headerCells))))
       (HtmlView.splitLines
          (unlines
             (HtmlReporter.cellsLine (HtmlView.tableWidths headerCells rows) headerCells
              :: HtmlReporter.separatorLine (HtmlView.tableWidths headerCells rows) headerCells
              :: map (HtmlReporter.cellsLine (HtmlView.tableWidths headerCells rows))
                   (HtmlView.shownRows 0 false rows))))
  /\ (forall cells : list string,
         cells = headerCells \/ In cells rows ->
         HtmlReporter.cellsLine (HtmlView.tableWidths headerCells rows) cells
         = "| " ++ join " | "
                     (map (fun j => padEnd (nth j cells "") (HtmlView.columnWidth headerCells rows j))
                        (seq 0 (length headerCells)))
           ++ " |"
         /\ forall j : nat,
             j < length headerCells ->
             String.length (nth j cells "") <= HtmlView.columnWidth headerCells rows j
             /\ prefix (nth j cells "")
                  (padEnd (nth j cells "") (HtmlView.columnWidth headerCells rows j)) = true
             /\ String.length (padEnd (nth j cells "") (HtmlView.columnWidth headerCells rows j))
                = HtmlView.columnWidth headerCells rows j).
Proof.
  intros Hall Hh Hr.
  pose proof (written_lines_aligned headerCells rows Hall)
    as [Hw [Hout [Hlines [Hincl [Hcells Hsplit]]]]].
  specialize (Hsplit Hh Hr).
  split; [exact Hw |]. split; [exact Hout |]. split; [exact Hsplit |].
  split; [| exact Hcells].
  rewrite Hsplit.
  inversion Hlines as [| x l Hhead Htail]; subst.
  inversion Htail as [| y l' Hsep Hrows]; subst.
  constructor; [exact Hhead |]. constructor; [exact Hsep |].
  rewrite Forall_forall in Hrows. apply Forall_forall. intros line Hline.
  apply Hrows. apply in_map_iff in Hline as [row [<- Hrow]].
  apply in_map. now apply Hincl.
Qed.

(** The table of Scenario A: three header columns, three cells in each row,
    no line feed in any text; its five lines are 24 characters long. *)
Lemma column_widths_witness :
  (forall row : HtmlReporter.Row, In row rowsA -> length row = length headerA)
  /\ Forall (fun s => HtmlView.hasLineFeed s = false) headerA
  /\ Forall (Forall (fun s => HtmlView.hasLineFeed s = false)) rowsA
  /\ (1 < length headerA
      /\ array_get (HtmlView.tableWidths headerA rowsA) 1
         = Num (list_max (String.length (nth 1 headerA "")
                          :: map (fun row => String.length (nth 1 row "")) rowsA)))
  /\ Forall (fun line : string =>
               String.length line
               = HtmlView.lineLength
                   (map (HtmlView.columnWidth headerA rowsA) (seq 0 (length headerA))))
       (HtmlView.splitLines
          (unlines
             (HtmlReporter.cellsLine (HtmlView.tableWidths headerA rowsA) headerA
              :: HtmlReporter.separatorLine (HtmlView.tableWidths headerA rowsA) headerA
              :: map (HtmlReporter.cellsLine (HtmlView.tableWidths headerA rowsA))
                   (HtmlView.shownRows 0 false rowsA))))
  /\ (In ["2"; "Maximum"; "90"] rowsA
      /\ 1 < length headerA
      /\ String.length (nth 1 ["2"; "Maximum"; "90"] "") <= HtmlView.columnWidth headerA rowsA 1).
Proof.
  assert (Hall : forall row : HtmlReporter.Row, In row rowsA -> length row = length headerA).
  { intros row [<- | [<- | [<- | [<- | []]]]]; reflexivity. }
  assert (H1 : 1 < length headerA) by (cbn; lia).
  assert (Hin : In ["2"; "Maximum"; "90"] rowsA) by (right; left; reflexivity).
  assert (Hh : Forall (fun s => HtmlView.hasLineFeed s = false) headerA)
    by (repeat constructor).
  assert (Hr : Forall (Forall (fun s => HtmlView.hasLineFeed s = false)) rowsA)
    by (repeat constructor).
  pose proof (column_widths headerA rowsA Hall Hh Hr) as [Hw [_ [_ [Hlines Hcells]]]].
  split; [exact Hall |]. split; [exact Hh |]. split; [exact Hr |].
  split; [split; [exact H1 | exact (Hw 1 H1)] |].
  split; [exact Hlines |].
  split; [exact Hin |]. split; [exact H1 |].
  exact (proj1 (proj2 (Hcells _ (or_intror Hin)) 1 H1)).
Defined.

(** C9: the time gate. The HTML reporter fetches if and only if the time read
    for the contest window lies in the window, bounds included, and the time
    read for the cadence has minute 0; the API reporter fetches if and only if
    the time lies in the window. When the gate is closed the run consists of
    one console message and performs no fetch at all; one minute before the
    window opens the gate is closed in both reporters. *)
Theorem time_gate :
  (forall (env : HtmlReporter.Env) (world : World (option HtmlReporter.Table)),
      existsb isGet (trace (HtmlReporter.scheduled env) world)
      = HtmlReporter.isContestPeriod (clock world 0) && HtmlReporter.is0Minute (clock world 1)
      /\ existsb isFetch (trace (HtmlReporter.scheduled env) world)
         = HtmlReporter.isContestPeriod (clock world 0) && HtmlReporter.is0Minute (clock world 1))
  /\ (forall (env : Reporter.Env) (world : World Reporter.APIResponse),
         existsb isGet (trace (Reporter.scheduled env) world)
         = Reporter.isContestPeriod (clock world 0)
         /\ existsb isFetch (trace (Reporter.scheduled env) world)
            = Reporter.isContestPeriod (clock world 0))
  /\ (forall date : Date,
         (HtmlReporter.isContestPeriod date = true
          <-> (HtmlReporter.CONTEST_START_AT <= date <= HtmlReporter.CONTEST_END_AT)%Z)
         /\ (Reporter.isContestPeriod date = true
             <-> (Reporter.CONTEST_START_AT <= date <= Reporter.CONTEST_END_AT)%Z)
         /\ (HtmlReporter.is0Minute date = true <-> getMinutes date = 0%Z))
  /\ (forall (env : HtmlReporter.Env) (now : Date) (response : option HtmlReporter.Table),
         existsb isFetch (trace (HtmlReporter.scheduled env) (mkWorld (fun _ => now) response))
         = HtmlReporter.isContestPeriod now && HtmlReporter.is0Minute now)
  /\ (minuteBefore = (HtmlReporter.CONTEST_START_AT - 60000)%Z
      /\ minuteBefore = (Reporter.CONTEST_START_AT - 60000)%Z
      /\ HtmlReporter.isContestPeriod minuteBefore = false
      /\ Reporter.isContestPeriod minuteBefore = false)
  /\ (forall (env : HtmlReporter.Env) (clk : nat -> Date) (response : option HtmlReporter.Table),
         trace (HtmlReporter.scheduled env)
           (mkWorld (fun n => match n with O => minuteBefore | S _ => clk n end) response)
         = [EConsole LogLevel "not in contest period"])
  /\ (forall (env : Reporter.Env) (clk : nat -> Date) (response : Reporter.APIResponse),
         trace (Reporter.scheduled env)
           (mkWorld (fun n => match n with O => minuteBefore | S _ => clk n end) response)
         = [EConsole LogLevel "not in contest period"]).
Proof.
  assert (Hhtml : forall (env : HtmlReporter.Env) (world : World (option HtmlReporter.Table)),
             existsb isGet (trace (HtmlReporter.scheduled env) world)
             = HtmlReporter.isContestPeriod (clock world 0) && HtmlReporter.is0Minute (clock world 1)
             /\ existsb isFetch (trace (HtmlReporter.scheduled env) world)
                = HtmlReporter.isContestPeriod (clock world 0) && HtmlReporter.is0Minute (clock world 1)).
  { intros env world. unfold trace. rewrite html_scheduled_run.
    destruct (HtmlReporter.isContestPeriod (clock world 0)); [| split; reflexivity].
    destruct (HtmlReporter.is0Minute (clock world 1)); [| split; reflexivity].
    destruct (response world) as [table |]; [| split; reflexivity].
    destruct (HtmlReporter.thead table); split; reflexivity. }
  split; [exact Hhtml |].
  split.
  { intros env world. unfold trace. rewrite api_scheduled_run.
    destruct (Reporter.isContestPeriod (clock world 0)); [| split; reflexivity].
    destruct (response world); split; reflexivity. }
  split.
  { intros date. split; [apply html_isContestPeriod_spec |].
    split; [apply api_isContestPeriod_spec |].
    unfold HtmlReporter.is0Minute. apply Z.eqb_eq. }
  split.
  { intros env now response.
    exact (proj2 (Hhtml env (mkWorld (fun _ => now) response))). }
  split; [repeat split; reflexivity |].
  split.
  - intros env clk response. unfold trace. rewrite html_scheduled_run. reflexivity.
  - intros env clk response. unfold trace. rewrite api_scheduled_run. reflexivity.
Qed.

(** A table without a header, at any time the gate lets through, is still
    dispatched: the run logs the missing header and then posts, with no
    content. *)
Lemma headerless_table_run (env : HtmlReporter.Env)
  (world : World (option HtmlReporter.Table)) (rows : list HtmlReporter.Row) :
  HtmlReporter.isContestPeriod (clock world 0) = true ->
  HtmlReporter.is0Minute (clock world 1) = true ->
  response world = Some (HtmlReporter.mkTable None rows) ->
  run (HtmlReporter.scheduled env) world 0
  = ([EGet HtmlReporter.RANKING_PAGE_URL;
      EConsole ErrorLevel "Header not found";
      EPost (HtmlReporter.DISCORD_WEBHOOK_URL env) None], Returned tt).
Proof.
  intros Hwin Hmin Hresp. rewrite html_scheduled_run, Hwin, Hmin, Hresp. reflexivity.
Qed.

(** C3 (what the code does at the failing input): for a table without a
    header section the renderer logs ["Header not found"] and returns no
    text, as the claim says; but the handler does not stop there: inside the
    contest window, at minute 0, its run goes on to the webhook POST, whose
    body then carries no content. *)
Theorem headerless_table_is_posted :
  HtmlReporter.thead tableNoHeader = None
  /\ HtmlReporter.tableToMarkdown tableNoHeader
     = Console ErrorLevel "Header not found" (Ret None)
  /\ HtmlReporter.isContestPeriod noonInside = true
  /\ HtmlReporter.is0Minute noonInside = true
  /\ run (HtmlReporter.scheduled htmlEnv)
       (mkWorld (fun _ => noonInside) (Some tableNoHeader)) 0
     = ([EGet "https://icfpcontest2025.github.io/aedificium.html";
         EConsole ErrorLevel "Header not found";
         EPost "https://discord.example/webhook" None], Returned tt)
  /\ existsb isPost
       (trace (HtmlReporter.scheduled htmlEnv)
          (mkWorld (fun _ => noonInside) (Some tableNoHeader))) = true.
Proof.
  do 4 (split; [reflexivity |]).
  split; [| unfold trace]; rewrite (headerless_table_run htmlEnv _ rowsA);
    reflexivity.
Qed.

(** C4: in the API reporter, when the fetched payload is the empty array,
    [responseToMarkdown] fails (reading the score of a first entry that does
    not exist throws), the handler ends on that uncaught error right after its
    GET, and no webhook POST is performed, at whatever time it runs. *)
Theorem empty_payload_no_dispatch (env : Reporter.Env) (clk : nat -> Date) :
  @Reporter.responseToMarkdown Reporter.APIResponse [] = Throw TypeError
  /\ run (Reporter.scheduled env) (mkWorld clk []) 0
     = (if Reporter.isContestPeriod (clk 0)
        then ([EGet Reporter.RANKING_API_URL], Uncaught TypeError)
        else ([EConsole LogLevel "not in contest period"], Returned tt))
  /\ existsb isPost (trace (Reporter.scheduled env) (mkWorld clk [])) = false.
Proof.
  split; [reflexivity |].
  unfold trace. rewrite api_scheduled_run. cbn [clock response].
  destruct (Reporter.isContestPeriod (clk 0)); split; reflexivity.
Qed.

End Claims.

(** * Further properties of the HTML reporter *)
Module MoreHtmlFacts.
Import Runtime RuntimeFacts HtmlReporter Vocabulary VocabularyFacts HtmlView.
Import HtmlFacts HtmlWidthFacts TrackedFacts MoreVocabulary.

(** Column [j] after the rows, whatever their numbers of cells: a row without
    a cell in the column leaves the width as it is. *)
Lemma scanRows_get_any (rows : list Row) (k : nat) (st : ScanState) (j w : nat) :
  array_get (maxLengths st) j = Num w ->
  array_get (maxLengths (forEach_from scanRow k rows st)) j
  = Num (Nat.max w (list_max (map (fun row => String.length (nth j row "")) rows))).
Proof.
  revert k st w. induction rows as [| row rows IH]; intros k st w Hw;
    cbn [forEach_from map list_max fold_right].
  - now rewrite Nat.max_0_r.
  - rewrite (IH _ _ (Nat.max w (String.length (nth j row "")))).
    + f_equal. change (fold_right Nat.max 0) with list_max. lia.
    + unfold scanRow. cbn [maxLengths]. unfold forEach. rewrite scanCells_get.
      replace (0 <=? j)%nat with true by (symmetry; apply Nat.leb_le; lia).
      cbn [andb Nat.add]. rewrite Nat.sub_0_r.
      destruct (j <? length row)%nat eqn:E.
      * now rewrite Hw.
      * apply Nat.ltb_ge in E. rewrite (nth_overflow row "" E), Hw.
        cbn [String.length]. now rewrite Nat.max_0_r.
Qed.

Lemma tableWidths_get_any (headerCells : list string) (rows : list Row) (j : nat) :
  j < length headerCells ->
  array_get (tableWidths headerCells rows) j
  = Num (list_max (String.length (nth j headerCells "")
                   :: map (fun row => String.length (nth j row "")) rows)).
Proof.
  intros Hj. unfold tableWidths, scanTable, forEach.
  cbn [list_max fold_right]. change (fold_right Nat.max 0) with list_max.
  apply scanRows_get_any.
  cbn [maxLengths]. unfold array_get.
  rewrite (nth_indep _ Undefined (Num (String.length ""))) by now rewrite length_map.
  now rewrite (map_nth (fun cell => Num (String.length cell))).
Qed.

Lemma cell_fits_any (headerCells : list string) (rows : list Row) (cells : list string) (j : nat) :
  cells = headerCells \/ In cells rows ->
  j < length headerCells ->
  String.length (nth j cells "") <= columnWidth headerCells rows j.
Proof.
  intros Hcells Hj. unfold columnWidth.
  rewrite (tableWidths_get_any _ _ _ Hj). cbn [ToLength].
  apply list_max_In. destruct Hcells as [-> | Hin]; [now left | right].
  apply in_map_iff. now exists cells.
Qed.

(** A column beyond the header: once [NaN], always [NaN]. *)
Lemma scanRows_get_NaN (rows : list Row) (k : nat) (st : ScanState) (j : nat) :
  array_get (maxLengths st) j = NaN ->
  array_get (maxLengths (forEach_from scanRow k rows st)) j = NaN.
Proof.
  revert k st. induction rows as [| row rows IH]; intros k st Hst; [exact Hst |].
  cbn [forEach_from]. apply IH.
  unfold scanRow. cbn [maxLengths]. unfold forEach. rewrite scanCells_get, Hst.
  now destruct ((0 <=? j)%nat && (j <? 0 + length row)%nat).
Qed.

(** A column beyond the header: [undefined] until a row has a cell there. *)
Lemma scanRows_get_Undefined (rows : list Row) (k : nat) (st : ScanState) (j : nat) :
  array_get (maxLengths st) j = Undefined ->
  array_get (maxLengths (forEach_from scanRow k rows st)) j
  = if existsb (fun row => j <? length row)%nat rows then NaN else Undefined.
Proof.
  revert k st. induction rows as [| row rows IH]; intros k st Hst; [exact Hst |].
  cbn [forEach_from existsb].
  assert (Hrow : array_get (maxLengths (scanRow row k st)) j
                 = if (j <? length row)%nat then NaN else Undefined).
  { unfold scanRow. cbn [maxLengths]. unfold forEach. rewrite scanCells_get, Hst.
    replace (0 <=? j)%nat with true by (symmetry; apply Nat.leb_le; lia).
    cbn [andb Nat.add Math_max]. reflexivity. }
  destruct (j <? length row)%nat; cbn [orb].
  - now apply scanRows_get_NaN.
  - now apply IH.
Qed.

Lemma padEnd_0 (s : string) : padEnd s 0 = s.
Proof. unfold padEnd. cbn [Nat.sub repeat]. apply append_empty_r. Qed.

Lemma padEnd_exact (s : string) : padEnd s (String.length s) = s.
Proof. unfold padEnd. rewrite Nat.sub_diag. cbn [repeat]. apply append_empty_r. Qed.

Lemma map_nth_seq_id {A : Type} (l : list A) (d : A) :
  map (fun j => nth j l d) (seq 0 (length l)) = l.
Proof.
  induction l as [| x l IH]; [reflexivity |].
  cbn [length seq map nth]. f_equal.
  rewrite <- seq_shift, map_map. exact IH.
Qed.

(** The rows the second loop prints once a tracked row has been met: those of
    index up to 10. *)
Lemma shownRows_seen (index : nat) (rows : list Row) :
  shownRows index true rows = firstn (11 - index) rows.
Proof.
  revert index. induction rows as [| row rows IH]; intros index.
  - now rewrite firstn_nil.
  - cbn [shownRows]. replace (if isMaximumRow row then true else true) with true
      by now destruct (isMaximumRow row).
    cbn [andb]. rewrite IH.
    destruct (10 <? index)%nat eqn:E.
    + apply Nat.ltb_lt in E. replace (11 - index) with 0 by lia.
      replace (11 - S index) with 0 by lia. reflexivity.
    + apply Nat.ltb_ge in E. replace (11 - index) with (S (11 - S index)) by lia.
      reflexivity.
Qed.

(** The rows the second loop prints: all of them when no row is tracked, else
    a first part of them. *)
Lemma shownRows_unseen (index : nat) (rows : list Row) :
  shownRows index false rows
  = match findIndex isMaximumRow rows with
    | None => rows
    | Some c => firstn (Nat.max c (11 - index)) rows
    end.
Proof.
  revert index. induction rows as [| row rows IH]; intros index; [reflexivity |].
  cbn [shownRows findIndex]. destruct (isMaximumRow row) eqn:Hrow; cbn [andb].
  - rewrite shownRows_seen. cbn [Nat.max].
    destruct (10 <? index)%nat eqn:E.
    + apply Nat.ltb_lt in E. replace (11 - index) with 0 by lia.
      replace (11 - S index) with 0 by lia. reflexivity.
    + apply Nat.ltb_ge in E. replace (11 - index) with (S (11 - S index)) by lia.
      reflexivity.
  - rewrite IH. destruct (findIndex isMaximumRow rows) as [c |]; cbn [option_map];
      [| reflexivity].
    replace (Nat.max (S c) (11 - index)) with (S (Nat.max c (11 - S index))) by lia.
    reflexivity.
Qed.

End MoreHtmlFacts.

(** * Further properties of the API reporter *)
Module MoreApiFacts.
Import Runtime RuntimeFacts Reporter Vocabulary ApiView ApiFacts MoreVocabulary.

Lemma concatLines_app (l1 l2 : list string) :
  concatLines (l1 ++ l2)%list = concatLines l1 ++ concatLines l2.
Proof.
  induction l1 as [| x l1 IH]; cbn [concatLines app]; [reflexivity |].
  now rewrite IH, append_assoc.
Qed.

Lemma ranksFrom_cons (st : LoopState) (result : ResultItem) (l : list ResultItem) :
  ranksFrom st (result :: l)
  = rank (loopBody st result) :: ranksFrom (loopBody st result) l.
Proof.
  unfold ranksFrom. cbn [length seq map]. f_equal.
  rewrite <- seq_shift, map_map. reflexivity.
Qed.

Lemma ranks_ranksFrom (first : ResultItem) (rest : list ResultItem) :
  ranks (first :: rest) = ranksFrom (loopStart first) (first :: rest).
Proof. reflexivity. Qed.

(** What the loop writes, from any state on. *)
Lemma loop_markdown (l : list ResultItem) (st : LoopState) :
  markdown (fold_left loopBody l st)
  = markdown st
    ++ concatLines (map rankedLine (selectFrom (idx st) (combine (ranksFrom st l) l))).
Proof.
  revert st. induction l as [| result l IH]; intros st.
  - cbn. now rewrite append_empty_r.
  - cbn [fold_left]. rewrite IH, ranksFrom_cons. cbn [combine selectFrom snd].
    rewrite loopBody_markdown, loopBody_idx.
    replace (idx st + 1) with (S (idx st)) by lia.
    destruct ((teamName result =? "Maximum") || (idx st <? 10)%nat).
    + cbn [map concatLines rankedLine fst snd]. now rewrite append_assoc.
    + reflexivity.
Qed.

(** The results the loop writes a line for: the first ten, and the tracked
    ones among the others. *)
Lemma selectFrom_split (idx : nat) (l : list (nat * ResultItem)) :
  selectFrom idx l
  = (firstn (10 - idx) l
     ++ filter (fun rr => isTracked (snd rr)) (skipn (10 - idx) l))%list.
Proof.
  revert idx. induction l as [| rr l IH]; intros idx.
  - now rewrite firstn_nil, skipn_nil.
  - cbn [selectFrom]. rewrite IH.
    destruct (idx <? 10)%nat eqn:E.
    + apply Nat.ltb_lt in E. rewrite orb_true_r.
      replace (10 - idx) with (S (10 - S idx)) by lia. reflexivity.
    + apply Nat.ltb_ge in E. rewrite orb_false_r.
      replace (10 - idx) with 0 by lia. replace (10 - S idx) with 0 by lia.
      cbn [firstn skipn app filter]. unfold isTracked.
      now destruct (teamName (snd rr) =? "Maximum").
Qed.

Lemma loopStart_markdown (first : ResultItem) :
  markdown (loopStart first) = apiFenceLine ++ apiHeaderLine ++ apiSeparatorLine.
Proof.
  unfold loopStart, apiFenceLine, apiHeaderLine, apiSeparatorLine.
  cbv zeta. cbn [markdown]. rewrite !append_assoc. reflexivity.
Qed.

Lemma changes_firstn_S (l : list Z) (i : nat) :
  S i < length l ->
  changes (firstn (S (S i)) l)
  = changes (firstn (S i) l) + (if (nth (S i) l 0 =? nth i l 0)%Z then 0 else 1).
Proof.
  revert i. induction l as [| a l IH]; intros i Hi; [cbn in Hi; lia |].
  destruct l as [| b l]; [cbn in Hi; lia |].
  destruct i as [| i].
  - cbn. rewrite (Z.eqb_sym b a). destruct (a =? b)%Z; reflexivity.
  - specialize (IH i ltac:(cbn in *; lia)).
    change (firstn (S (S (S i))) (a :: b :: l)) with (a :: firstn (S (S i)) (b :: l)).
    change (firstn (S (S i)) (a :: b :: l)) with (a :: firstn (S i) (b :: l)).
    change (nth (S (S i)) (a :: b :: l) 0%Z) with (nth (S i) (b :: l) 0%Z).
    change (nth (S i) (a :: b :: l) 0%Z) with (nth i (b :: l) 0%Z).
    rewrite !firstn_cons in *. cbn [changes] in *. lia.
Qed.

Lemma changes_bound (l : list Z) : changes l <= length l - 1.
Proof.
  induction l as [| a l IH]; [cbn; lia |].
  destruct l as [| b l]; [cbn; lia |].
  cbn [changes length] in *. destruct (a =? b)%Z; lia.
Qed.

(** The rank of an entry is one more than the number of score changes up to it. *)
Lemma ranks_changes (results : APIResponse) (i : nat) :
  i < length results ->
  nth i (ranks results) 0 = 1 + changes (firstn (S i) (scores results)).
Proof.
  induction i as [| i IH]; intros Hi.
  - destruct results as [| first rest]; [cbn in Hi; lia |].
    now rewrite ranks_first.
  - rewrite (ranks_next results i Hi), (IH ltac:(lia)).
    rewrite changes_firstn_S by (unfold scores; now rewrite length_map).
    destruct (_ =? _)%Z; lia.
Qed.

Lemma nodup_snoc_length (l : list Z) (x : Z) :
  length (nodup Z.eq_dec (l ++ [x]))
  = length (nodup Z.eq_dec l) + (if in_dec Z.eq_dec x l then 0 else 1).
Proof.
  induction l as [| a l IH]; [reflexivity |].
  cbn [app nodup].
  destruct (in_dec Z.eq_dec a (l ++ [x])) as [Hin | Hnin];
    destruct (in_dec Z.eq_dec a l) as [Hal | Hnal];
    destruct (in_dec Z.eq_dec x (a :: l)) as [Hx | Hnx];
    destruct (in_dec Z.eq_dec x l) as [Hxl | Hnxl];
    cbn [length] in *; rewrite ?IH;
    try lia;
    try (exfalso; apply Hnx; now right);
    try (exfalso; apply Hnin; apply in_or_app; now left).
  - exfalso. destruct Hx as [-> | Hx]; [now apply Hnxl | now apply Hnxl].
  - exfalso. apply in_app_or in Hin as [Hin | [-> | []]]; [now apply Hnal |].
    now apply Hnal.
  - exfalso. apply in_app_or in Hin as [Hin | [-> | []]]; [now apply Hnal |].
    apply Hnx. now left.
  - exfalso. destruct Hx as [-> | Hx]; [| now apply Hnxl].
    apply Hnin. apply in_or_app. right. now left.
Qed.

End MoreApiFacts.

(** * Further properties of the two reporters *)
Module Extras.
Import Runtime RuntimeFacts Vocabulary VocabularyFacts Scenarios MoreVocabulary.
Import HtmlFacts HtmlWidthFacts ApiFacts TrackedFacts HandlerFacts MoreHtmlFacts.
Import MoreApiFacts.

(** X1: in any table, ragged or not, the width of a header column is the
    greatest text length over the header label and the cells the rows have in
    that column (a row without a cell there counts for nothing), so every
    text of the column fits its width. *)
Theorem ragged_table_widths (headerCells : list string) (rows : list HtmlReporter.Row) (j : nat) :
  j < length headerCells ->
  array_get (HtmlView.tableWidths headerCells rows) j
  = Num (list_max (String.length (nth j headerCells "")
                   :: map (fun row => String.length (nth j row "")) rows))
  /\ forall cells : list string,
      cells = headerCells \/ In cells rows ->
      String.length (nth j cells "") <= HtmlView.columnWidth headerCells rows j.
Proof.
  intros Hj. split; [now apply tableWidths_get_any |].
  intros cells Hcells. now apply cell_fits_any.
Qed.

(** In the ragged table the third column is as wide as its header, "Score",
    although the first row has no third cell. *)
Lemma ragged_table_widths_witness :
  2 < length headerA
  /\ array_get (HtmlView.tableWidths headerA rowsRagged) 2 = Num 5
  /\ (In ["1"; "Alpha"] rowsRagged
      /\ String.length (nth 2 ["1"; "Alpha"] "") <= HtmlView.columnWidth headerA rowsRagged 2).
Proof.
  assert (H2 : 2 < length headerA) by (cbn; lia).
  assert (Hin : In ["1"; "Alpha"] rowsRagged) by (left; reflexivity).
  pose proof (ragged_table_widths headerA rowsRagged 2 H2) as [Hw Hfit].
  split; [exact H2 |]. split; [exact Hw |].
  split; [exact Hin | exact (Hfit _ (or_intror Hin))].
Defined.

(** X2: in any table, the header line and the line of a row with no more cells
    than the header have the length their own columns give; so a row with as
    many cells as the header is exactly as long as the header line and the
    separator line, whatever the other rows look like. *)
Theorem ragged_table_lines (headerCells : list string) (rows : list HtmlReporter.Row)
  (cells : list string) :
  cells = headerCells \/ In cells rows ->
  length cells <= length headerCells ->
  String.length (HtmlReporter.cellsLine (HtmlView.tableWidths headerCells rows) cells)
  = HtmlView.lineLength (map (HtmlView.columnWidth headerCells rows) (seq 0 (length cells)))
  /\ (length cells = length headerCells ->
      String.length (HtmlReporter.cellsLine (HtmlView.tableWidths headerCells rows) cells)
      = String.length (HtmlReporter.separatorLine (HtmlView.tableWidths headerCells rows) headerCells)
      /\ String.length (HtmlReporter.cellsLine (HtmlView.tableWidths headerCells rows) cells)
         = String.length (HtmlReporter.cellsLine (HtmlView.tableWidths headerCells rows) headerCells)).
Proof.
  assert (Hline : forall cs : list string,
             cs = headerCells \/ In cs rows -> length cs <= length headerCells ->
             String.length (HtmlReporter.cellsLine (HtmlView.tableWidths headerCells rows) cs)
             = HtmlView.lineLength
                 (map (HtmlView.columnWidth headerCells rows) (seq 0 (length cs)))).
  { intros cs Hcs Hlen. rewrite length_cellsLine. f_equal.
    apply map_ext_in. intros j Hj. apply in_seq in Hj.
    fold (HtmlView.columnWidth headerCells rows j).
    pose proof (cell_fits_any headerCells rows cs j Hcs ltac:(lia)). lia. }
  intros Hcells Hlen. split; [now apply Hline |].
  intros Heq. rewrite length_separatorLine.
  rewrite !Hline by (auto; lia). rewrite Heq. split; reflexivity.
Qed.

(** In the ragged table the full row of Gamma is as long as the header line,
    and the row that is one cell short is not. *)
Lemma ragged_table_lines_witness :
  (In ["3"; "Gamma"; "80"] rowsRagged
   /\ length ["3"; "Gamma"; "80"] <= length headerA
   /\ length ["3"; "Gamma"; "80"] = length headerA
   /\ String.length (HtmlReporter.cellsLine (HtmlView.tableWidths headerA rowsRagged)
                       ["3"; "Gamma"; "80"])
      = String.length (HtmlReporter.cellsLine (HtmlView.tableWidths headerA rowsRagged) headerA))
  /\ (In ["1"; "Alpha"] rowsRagged
      /\ length ["1"; "Alpha"] <= length headerA
      /\ String.length (HtmlReporter.cellsLine (HtmlView.tableWidths headerA rowsRagged)
                          ["1"; "Alpha"])
         = HtmlView.lineLength
             (map (HtmlView.columnWidth headerA rowsRagged) (seq 0 (length ["1"; "Alpha"])))).
Proof.
  assert (Hin3 : In ["3"; "Gamma"; "80"] rowsRagged) by (right; right; left; reflexivity).
  assert (Hin1 : In ["1"; "Alpha"] rowsRagged) by (left; reflexivity).
  assert (Hle3 : length ["3"; "Gamma"; "80"] <= length headerA) by (cbn; lia).
  assert (Hle1 : length ["1"; "Alpha"] <= length headerA) by (cbn; lia).
  assert (Heq3 : length ["3"; "Gamma"; "80"] = length headerA) by reflexivity.
  split.
  - split; [exact Hin3 |]. split; [exact Hle3 |]. split; [exact Heq3 |].
    exact (proj2 (proj2 (ragged_table_lines headerA rowsRagged _ (or_intror Hin3) Hle3) Heq3)).
  - split; [exact Hin1 |]. split; [exact Hle1 |].
    exact (proj1 (ragged_table_lines headerA rowsRagged _ (or_intror Hin1) Hle1)).
Defined.

(** X3: a column beyond the header has no width: [maxLengths] holds [NaN]
    there once a row has a cell in the column, and nothing ([undefined])
    otherwise; either way the cells of such a column are printed as they are,
    without padding, whereas the cells under the header are padded to the
    width of their column. *)
Theorem extra_columns_unpadded (headerCells : list string) (rows : list HtmlReporter.Row)
  (j : nat) :
  length headerCells <= j ->
  array_get (HtmlView.tableWidths headerCells rows) j
  = (if existsb (fun row => j <? length row)%nat rows then NaN else Undefined)
  /\ HtmlView.columnWidth headerCells rows j = 0
  /\ forall row : HtmlReporter.Row,
      HtmlReporter.cellsLine (HtmlView.tableWidths headerCells rows) row
      = "| " ++ join " | "
                  (map (fun i => if (i <? length headerCells)%nat
                                 then padEnd (nth i row "") (HtmlView.columnWidth headerCells rows i)
                                 else nth i row "")
                     (seq 0 (length row)))
        ++ " |".
Proof.
  intros Hj.
  assert (Hget : forall i, length headerCells <= i ->
             array_get (HtmlView.tableWidths headerCells rows) i
             = if existsb (fun row => i <? length row)%nat rows then NaN else Undefined).
  { intros i Hi. unfold HtmlView.tableWidths, HtmlView.scanTable, forEach.
    apply scanRows_get_Undefined. cbn [HtmlReporter.maxLengths]. unfold array_get.
    apply nth_overflow. now rewrite length_map. }
  assert (Hwidth : forall i, length headerCells <= i ->
             HtmlView.columnWidth headerCells rows i = 0).
  { intros i Hi. unfold HtmlView.columnWidth. rewrite (Hget i Hi).
    now destruct (existsb (fun row => i <? length row)%nat rows). }
  split; [now apply Hget |]. split; [now apply Hwidth |].
  intros row. rewrite cellsLine_cells. f_equal. f_equal. f_equal.
  apply map_ext. intros i. fold (HtmlView.columnWidth headerCells rows i).
  destruct (i <? length headerCells)%nat eqn:E; [reflexivity |].
  apply Nat.ltb_ge in E. rewrite (Hwidth i E). apply padEnd_0.
Qed.

(** In the ragged table the fourth cell of the long row is printed bare. *)
Lemma extra_columns_unpadded_witness :
  length headerA <= 3
  /\ array_get (HtmlView.tableWidths headerA rowsRagged) 3 = NaN
  /\ HtmlView.columnWidth headerA rowsRagged 3 = 0
  /\ HtmlReporter.cellsLine (HtmlView.tableWidths headerA rowsRagged)
       ["2"; "Maximum"; "90"; "extra"]
     = "| 2    | Maximum | 90    | extra |".
Proof.
  assert (H3 : length headerA <= 3) by (cbn; lia).
  pose proof (extra_columns_unpadded headerA rowsRagged 3 H3) as [Hget [Hw Hline]].
  split; [exact H3 |]. split; [exact Hget |]. split; [exact Hw |].
  rewrite (Hline ["2"; "Maximum"; "90"; "extra"]). reflexivity.
Defined.

(** X4: a table with a header and no body row renders to the page address,
    the fence, the header labels as they are, one run of hyphens per label of
    the label's length, and the closing fence: no highlight line, no padding. *)
Theorem header_only_table (headerCells : list string) :
  HtmlReporter.tableToMarkdown (HtmlReporter.mkTable (Some headerCells) [])
  = Ret (Some (HtmlReporter.RANKING_PAGE_URL ++ nl
               ++ "```markdown" ++ nl
               ++ ("| " ++ join " | " headerCells ++ " |") ++ nl
               ++ ("| " ++ join " | " (map (fun cell => repeat "-" (String.length cell)) headerCells)
                   ++ " |") ++ nl
               ++ "```" ++ nl)).
Proof.
  rewrite tableToMarkdown_output.
  assert (Hw : forall j, j < length headerCells ->
             ToLength (array_get (HtmlView.tableWidths headerCells []) j)
             = String.length (nth j headerCells "")).
  { intros j Hj. rewrite (tableWidths_get_any headerCells [] j Hj).
    cbn [map list_max fold_right ToLength]. lia. }
  assert (Hhead : HtmlReporter.cellsLine (HtmlView.tableWidths headerCells []) headerCells
                  = "| " ++ join " | " headerCells ++ " |").
  { rewrite cellsLine_cells. f_equal. f_equal. f_equal.
    transitivity (map (fun j => nth j headerCells "") (seq 0 (length headerCells)));
      [| apply map_nth_seq_id].
    apply map_ext_in. intros j Hj. apply in_seq in Hj.
    rewrite Hw by lia. apply padEnd_exact. }
  assert (Hsep : HtmlReporter.separatorLine (HtmlView.tableWidths headerCells []) headerCells
                 = "| " ++ join " | "
                             (map (fun cell => repeat "-" (String.length cell)) headerCells)
                   ++ " |").
  { unfold HtmlReporter.separatorLine, mapi.
    rewrite (map_from_seq _ 0 headerCells ""). f_equal. f_equal. f_equal.
    transitivity (map (fun cell => repeat "-" (String.length cell))
                    (map (fun j => nth j headerCells "") (seq 0 (length headerCells))));
      [| now rewrite map_nth_seq_id].
    rewrite map_map.
    apply map_ext_in. intros j Hj. apply in_seq in Hj.
    cbn [Nat.add]. now rewrite Hw by lia. }
  rewrite Hhead, Hsep. cbn [HtmlView.shownRows map unlines].
  replace (HtmlView.highlight (HtmlView.tableRank headerCells [])) with ""
    by reflexivity.
  rewrite !append_assoc. reflexivity.
Qed.

(** X5: the body of the rendered table is always a first part of the row
    sequence, in order: all the rows when no row is tracked; otherwise at
    least the first eleven (all of them if there are fewer) and every row
    before the first tracked one, and nothing past both the eleventh row and
    the first tracked row. *)
Theorem rendered_rows_prefix (headerCells : list string) (rows : list HtmlReporter.Row) :
  exists k : nat,
    HtmlReporter.tableToMarkdown (HtmlReporter.mkTable (Some headerCells) rows)
    = Ret (Some (HtmlView.highlight (HtmlView.tableRank headerCells rows)
                 ++ HtmlReporter.RANKING_PAGE_URL ++ nl
                 ++ "```markdown" ++ nl
                 ++ unlines
                      (HtmlReporter.cellsLine (HtmlView.tableWidths headerCells rows) headerCells
                       :: HtmlReporter.separatorLine (HtmlView.tableWidths headerCells rows) headerCells
                       :: map (HtmlReporter.cellsLine (HtmlView.tableWidths headerCells rows))
                            (firstn k rows))
                 ++ "```" ++ nl))
    /\ match HtmlView.cutoffIndex rows with
       | None => k = length rows
       | Some c => 11 <= k /\ c <= k /\ k <= Nat.max 11 (S c)
       end.
Proof.
  pose proof (shownRows_unseen 0 rows) as Hshown.
  fold (HtmlView.cutoffIndex rows) in Hshown.
  destruct (HtmlView.cutoffIndex rows) as [c |].
  - exists (Nat.max c 11). rewrite tableToMarkdown_output, Hshown.
    split; [reflexivity | lia].
  - exists (length rows). rewrite tableToMarkdown_output, Hshown, firstn_all.
    split; reflexivity.
Qed.

(** X6: the whole text the API reporter renders for a non-empty leaderboard:
    the fence, the header line, the separator line, then one line for each of
    the first ten results and for each later result named "Maximum", in
    order, each with the rank the loop assigned to it, and the closing
    fence. *)
Theorem api_rendered_output (first : Reporter.ResultItem) (rest : list Reporter.ResultItem) :
  @Reporter.responseToMarkdown Reporter.APIResponse (first :: rest)
  = Ret (apiFenceLine ++ apiHeaderLine ++ apiSeparatorLine
         ++ concatLines (map rankedLine (firstn 10 (ranked (first :: rest))))
         ++ concatLines
              (map rankedLine
                 (filter (fun rr => ApiView.isTracked (snd rr))
                    (skipn 10 (ranked (first :: rest)))))
         ++ "```" ++ nl)
  /\ length (ranked (first :: rest)) = length (first :: rest)
  /\ map snd (ranked (first :: rest)) = first :: rest
  /\ map fst (ranked (first :: rest)) = ApiView.ranks (first :: rest).
Proof.
  assert (Hlen : length (ApiView.ranks (first :: rest)) = length (first :: rest))
    by apply ranks_length.
  split; [| split; [| split]].
  - unfold Reporter.responseToMarkdown.
    rewrite loop_markdown, loopStart_markdown, <- ranks_ranksFrom.
    fold (ranked (first :: rest)).
    rewrite selectFrom_split. cbn [Reporter.loopStart Reporter.idx Nat.sub].
    rewrite map_app, concatLines_app, !append_assoc. reflexivity.
  - unfold ranked. rewrite length_combine, Hlen. apply Nat.min_id.
  - unfold ranked.
    generalize dependent (ApiView.ranks (first :: rest)).
    generalize (first :: rest) as l.
    induction l as [| x l IH]; intros rs Hrs; destruct rs as [| r rs];
      try discriminate Hrs; [reflexivity |].
    cbn [combine map snd]. f_equal. apply IH. now injection Hrs.
  - unfold ranked.
    generalize dependent (ApiView.ranks (first :: rest)).
    generalize (first :: rest) as l.
    induction l as [| x l IH]; intros rs Hrs; destruct rs as [| r rs];
      try discriminate Hrs; [reflexivity |].
    cbn [combine map fst]. f_equal. apply IH. now injection Hrs.
Qed.

(** X7: the line of a result is the header line's length (81 with the line
    feed, as the separator line) plus the overflow of its three texts: it has
    the length of the header line exactly when the rank, the team name and
    the score fit 5, 60 and 5 characters, and is longer otherwise; nothing is
    cut off. *)
Theorem api_line_length (rank : nat) (result : Reporter.ResultItem) :
  String.length apiHeaderLine = 81
  /\ String.length apiSeparatorLine = 81
  /\ String.length (Reporter.resultLine rank result)
     = String.length apiHeaderLine + overflow rank result
  /\ (String.length (Reporter.resultLine rank result) = String.length apiHeaderLine
      <-> String.length (nat_toString rank) <= 5
          /\ String.length (Reporter.teamName result) <= 60
          /\ String.length (Z_toString (Reporter.score result)) <= 5)
  /\ prefix (Reporter.teamName result)
       (padEnd (Reporter.teamName result) Reporter.TEAM_NAME_MAX_LENGTH) = true.
Proof.
  assert (Hh : String.length apiHeaderLine = 81) by reflexivity.
  assert (Hs : String.length apiSeparatorLine = 81) by reflexivity.
  assert (Hl : String.length (Reporter.resultLine rank result) = 81 + overflow rank result).
  { unfold Reporter.resultLine, overflow. rewrite !length_append, !length_padEnd.
    unfold Reporter.RANK_MAX_LENGTH, Reporter.TEAM_NAME_MAX_LENGTH, Reporter.SCORE_MAX_LENGTH.
    change (String.length nl) with 1. cbn [String.length]. lia. }
  split; [exact Hh |]. split; [exact Hs |]. rewrite Hh, Hl.
  split; [reflexivity |]. split; [| apply padEnd_keeps_text].
  unfold overflow, Reporter.RANK_MAX_LENGTH, Reporter.TEAM_NAME_MAX_LENGTH,
    Reporter.SCORE_MAX_LENGTH. lia.
Qed.

(** X8: the rank of an entry is one more than the number of places, up to
    that entry, where the score differs from the score of the entry before;
    it depends on the scores alone, it is at least 1 and at most the entry's
    position counted from 1. *)
Theorem rank_counts_changes (results : Reporter.APIResponse) (i : nat) :
  i < length results ->
  nth i (ApiView.ranks results) 0 = 1 + changes (firstn (S i) (ApiView.scores results))
  /\ 1 <= nth i (ApiView.ranks results) 0 <= i + 1.
Proof.
  intros Hi. rewrite (ranks_changes results i Hi). split; [reflexivity |].
  pose proof (changes_bound (firstn (S i) (ApiView.scores results))) as Hb.
  rewrite length_firstn in Hb. lia.
Qed.

(** In Scenario A the entry of index 3 comes after two score changes. *)
Lemma rank_counts_changes_witness :
  3 < length apiA
  /\ nth 3 (ApiView.ranks apiA) 0 = 1 + changes (firstn 4 (ApiView.scores apiA))
  /\ changes (firstn 4 (ApiView.scores apiA)) = 2
  /\ 1 <= nth 3 (ApiView.ranks apiA) 0 <= 3 + 1.
Proof.
  assert (H3 : 3 < length apiA) by (cbn; lia).
  pose proof (rank_counts_changes apiA 3 H3) as [Heq Hb].
  split; [exact H3 |]. split; [exact Heq |]. split; [reflexivity | exact Hb].
Defined.

(** X9: on scores that go down along the sequence, the rank of an entry is
    the number of different scores among the entries up to and including it
    (dense ranking: ties share a rank and no rank is skipped). *)
Theorem rank_counts_distinct_scores (results : Reporter.APIResponse) (i : nat) :
  ApiView.descending (ApiView.scores results) = true ->
  i < length results ->
  nth i (ApiView.ranks results) 0 = distinct (firstn (S i) (ApiView.scores results)).
Proof.
  intros Hd. induction i as [| i IH]; intros Hi.
  - destruct results as [| first rest]; [cbn in Hi; lia |].
    now rewrite ranks_first.
  - assert (Hlen : S i < length (ApiView.scores results))
      by (unfold ApiView.scores; now rewrite length_map).
    rewrite (ranks_next results i Hi), (IH ltac:(lia)).
    rewrite (firstn_S_snoc (ApiView.scores results) (S i) (nth (S i) (ApiView.scores results) 0%Z))
      by (apply nth_error_nth'; exact Hlen).
    unfold distinct. rewrite nodup_snoc_length.
    destruct (in_dec Z.eq_dec _ _) as [Hin | Hnin].
    + replace (nth (S i) (ApiView.scores results) 0 =? nth i (ApiView.scores results) 0)%Z
        with true; [lia |].
      symmetry. apply Z.eqb_eq.
      apply (In_nth _ _ 0%Z) in Hin as [k [Hk Hnth]].
      rewrite length_firstn in Hk. rewrite nth_firstn in Hnth.
      replace (k <? S i)%nat with true in Hnth by (symmetry; apply Nat.ltb_lt; lia).
      pose proof (proj1 (ranks_equal_iff results k i Hd ltac:(lia) ltac:(lia))).
      pose proof (proj1 (ranks_equal_iff results i (S i) Hd ltac:(lia) Hi)).
      lia.
    + destruct (_ =? _)%Z eqn:E; [| lia].
      exfalso. apply Hnin. apply Z.eqb_eq in E. rewrite E.
      replace (nth i (ApiView.scores results) 0%Z)
        with (nth i (firstn (S i) (ApiView.scores results)) 0%Z).
      * apply nth_In. rewrite length_firstn. lia.
      * rewrite nth_firstn.
        replace (i <? S i)%nat with true by (symmetry; apply Nat.ltb_lt; lia).
        reflexivity.
Qed.

(** In Scenario A the scores 100, 90, 90, 80 hold three different values, and
    the last entry has rank 3. *)
Lemma rank_counts_distinct_scores_witness :
  ApiView.descending (ApiView.scores apiA) = true
  /\ 3 < length apiA
  /\ nth 3 (ApiView.ranks apiA) 0 = distinct (firstn 4 (ApiView.scores apiA))
  /\ distinct (firstn 4 (ApiView.scores apiA)) = 3.
Proof.
  assert (Hd : ApiView.descending (ApiView.scores apiA) = true) by reflexivity.
  assert (H3 : 3 < length apiA) by (cbn; lia).
  split; [exact Hd |]. split; [exact H3 |].
  split; [exact (rank_counts_distinct_scores apiA 3 Hd H3) | reflexivity].
Defined.

(** What the check [postsFollowGet] establishes. *)
Lemma postsFollowGet_sound (tr : list Event) (seenGet : bool) :
  postsFollowGet seenGet tr = true ->
  forall (pre : list Event) (url : string) (content : option string) (post : list Event),
    tr = (pre ++ EPost url content :: post)%list ->
    seenGet || existsb isGet pre = true.
Proof.
  intros Hok pre. revert tr seenGet Hok.
  induction pre as [| e pre IH]; intros tr seenGet Hok url content post ->.
  - cbn in Hok. apply andb_true_iff in Hok as [-> _]. reflexivity.
  - destruct e as [lvl msg | u | u c]; cbn [app postsFollowGet existsb isGet] in *.
    + exact (IH _ _ Hok url content post eq_refl).
    + now rewrite orb_true_r.
    + apply andb_true_iff in Hok as [-> _]. reflexivity.
Qed.

(** When both network calls resolve, a run is the run in the world that
    holds the response. *)
Lemma runNet_resolved {R A : Type} (w : Worker R A) (clk : nat -> Date) (r : R) (n : nat) :
  Network.runNet w (Network.mkNetWorld clk (Network.Resolved r) (Network.Resolved tt)) n
  = (fst (run w (mkWorld clk r) n), Network.Ended (snd (run w (mkWorld clk r) n))).
Proof.
  revert n. induction w as [a | e | k IH | lvl msg k IH | url k IH | url content k IH];
    intros n; cbn [Network.runNet run Network.netClock Network.getSettles
                     Network.postSettles clock response].
  - reflexivity.
  - reflexivity.
  - apply IH.
  - rewrite IH. now destruct (run k (mkWorld clk r) n).
  - rewrite IH. now destruct (run (k r) (mkWorld clk r) n).
  - rewrite IH. now destruct (run k (mkWorld clk r) n).
Qed.

(** Every run of the HTML reporter's handler, rejections included. *)
Lemma html_scheduled_runNet (env : HtmlReporter.Env)
  (world : Network.NetWorld (option HtmlReporter.Table)) :
  Network.runNet (HtmlReporter.scheduled env) world 0
  = if negb (HtmlReporter.isContestPeriod (Network.netClock world 0))
    then ([EConsole LogLevel "not in contest period"], Network.Ended (Returned tt))
    else if negb (HtmlReporter.is0Minute (Network.netClock world 1))
    then ([EConsole LogLevel "not 0 minute"], Network.Ended (Returned tt))
    else match Network.getSettles world with
         | Network.Rejected =>
             ([EGet HtmlReporter.RANKING_PAGE_URL], Network.UncaughtRejection)
         | Network.Resolved None =>
             ([EGet HtmlReporter.RANKING_PAGE_URL;
               EConsole ErrorLevel "Table not found"], Network.Ended (Returned tt))
         | Network.Resolved (Some table) =>
             match HtmlReporter.thead table with
             | None =>
                 ([EGet HtmlReporter.RANKING_PAGE_URL;
                   EConsole ErrorLevel "Header not found";
                   EPost (HtmlReporter.DISCORD_WEBHOOK_URL env) None],
                  match Network.postSettles world with
                  | Network.Resolved _ => Network.Ended (Returned tt)
                  | Network.Rejected => Network.UncaughtRejection
                  end)
             | Some headerCells =>
                 ([EGet HtmlReporter.RANKING_PAGE_URL;
                   EPost (HtmlReporter.DISCORD_WEBHOOK_URL env)
                     (Some (HtmlReporter.renderTable headerCells (HtmlReporter.tbody_tr table)))],
                  match Network.postSettles world with
                  | Network.Resolved _ => Network.Ended (Returned tt)
                  | Network.Rejected => Network.UncaughtRejection
                  end)
             end
         end.
Proof.
  unfold HtmlReporter.scheduled, new_Date. cbn [bind Network.runNet].
  destruct (negb (HtmlReporter.isContestPeriod (Network.netClock world 0))); [reflexivity |].
  cbn [bind Network.runNet].
  destruct (negb (HtmlReporter.is0Minute (Network.netClock world 1))); [reflexivity |].
  unfold fetch. cbn [bind Network.runNet].
  destruct (Network.getSettles world) as [[table |] |]; [| reflexivity | reflexivity].
  unfold HtmlReporter.tableToMarkdown.
  destruct (HtmlReporter.thead table); cbn [bind console_error fetch_post Network.runNet];
    destruct (Network.postSettles world); reflexivity.
Qed.

(** Every run of the API reporter's handler, rejections included. *)
Lemma api_scheduled_runNet (env : Reporter.Env)
  (world : Network.NetWorld Reporter.APIResponse) :
  Network.runNet (Reporter.scheduled env) world 0
  = if negb (Reporter.isContestPeriod (Network.netClock world 0))
    then ([EConsole LogLevel "not in contest period"], Network.Ended (Returned tt))
    else match Network.getSettles world with
         | Network.Rejected =>
             ([EGet Reporter.RANKING_API_URL], Network.UncaughtRejection)
         | Network.Resolved [] =>
             ([EGet Reporter.RANKING_API_URL], Network.Ended (Uncaught TypeError))
         | Network.Resolved (first :: rest) =>
             ([EGet Reporter.RANKING_API_URL;
               EPost (Reporter.DISCORD_WEBHOOK_URL env)
                 (Some (Reporter.markdown
                          (fold_left Reporter.loopBody (first :: rest) (Reporter.loopStart first))
                        ++ ("```" ++ nl)))],
              match Network.postSettles world with
              | Network.Resolved _ => Network.Ended (Returned tt)
              | Network.Rejected => Network.UncaughtRejection
              end)
         end.
Proof.
  unfold Reporter.scheduled, new_Date. cbn [bind Network.runNet].
  destruct (negb (Reporter.isContestPeriod (Network.netClock world 0))); [reflexivity |].
  unfold fetch. cbn [bind Network.runNet].
  destruct (Network.getSettles world) as [[| first rest] |]; [reflexivity | | reflexivity].
  unfold Reporter.responseToMarkdown. cbn [bind fetch_post Network.runNet].
  destruct (Network.postSettles world); reflexivity.
Qed.

(** X10: the runs of the HTML reporter's handler, a network call being free to
    reject. The handler attempts one GET, of the ranking page, exactly when
    the gate is open, and no other GET. It attempts one POST, to the
    configured webhook and with what [tableToMarkdown] returned, exactly when
    the gate is open and the GET resolved to a page that has a table, and no
    other POST; a page without a table is logged as "Table not found" and
    nothing is posted. A POST never comes before the GET. The run ends on an
    uncaught rejection exactly when a call it attempted rejects (the GET, or
    the POST after a GET that gave a table), and ends normally otherwise. *)
Theorem html_handler_dispatch (env : HtmlReporter.Env)
  (world : Network.NetWorld (option HtmlReporter.Table)) :
  filter isGet (Network.netTrace (HtmlReporter.scheduled env) world)
  = (if HtmlReporter.isContestPeriod (Network.netClock world 0)
        && HtmlReporter.is0Minute (Network.netClock world 1)
     then [EGet HtmlReporter.RANKING_PAGE_URL] else [])
  /\ filter isPost (Network.netTrace (HtmlReporter.scheduled env) world)
     = (if HtmlReporter.isContestPeriod (Network.netClock world 0)
           && HtmlReporter.is0Minute (Network.netClock world 1)
        then match Network.getSettles world with
             | Network.Resolved (Some table) =>
                 match Network.netOutcome (HtmlReporter.tableToMarkdown table) world with
                 | Network.Ended (Returned content) =>
                     [EPost (HtmlReporter.DISCORD_WEBHOOK_URL env) content]
                 | _ => []
                 end
             | _ => []
             end
        else [])
  /\ Network.netOutcome (HtmlReporter.scheduled env) world
     = (if HtmlReporter.isContestPeriod (Network.netClock world 0)
           && HtmlReporter.is0Minute (Network.netClock world 1)
        then match Network.getSettles world with
             | Network.Rejected => Network.UncaughtRejection
             | Network.Resolved None => Network.Ended (Returned tt)
             | Network.Resolved (Some _) =>
                 match Network.postSettles world with
                 | Network.Resolved _ => Network.Ended (Returned tt)
                 | Network.Rejected => Network.UncaughtRejection
                 end
             end
        else Network.Ended (Returned tt))
  /\ (HtmlReporter.isContestPeriod (Network.netClock world 0)
        && HtmlReporter.is0Minute (Network.netClock world 1) = true ->
      Network.getSettles world = Network.Resolved None ->
      Network.netTrace (HtmlReporter.scheduled env) world
      = [EGet HtmlReporter.RANKING_PAGE_URL; EConsole ErrorLevel "Table not found"])
  /\ (forall (pre : list Event) (url : string) (content : option string) (post : list Event),
         Network.netTrace (HtmlReporter.scheduled env) world
         = (pre ++ EPost url content :: post)%list ->
         existsb isGet pre = true).
Proof.
  assert (Hord : postsFollowGet false (Network.netTrace (HtmlReporter.scheduled env) world) = true).
  { unfold Network.netTrace. rewrite html_scheduled_runNet.
    destruct (HtmlReporter.isContestPeriod (Network.netClock world 0)); [| reflexivity].
    destruct (HtmlReporter.is0Minute (Network.netClock world 1)); [| reflexivity].
    destruct (Network.getSettles world) as [[table |] |]; [| reflexivity | reflexivity].
    destruct (HtmlReporter.thead table); reflexivity. }
  split; [| split; [| split; [| split]]].
  - unfold Network.netTrace. rewrite html_scheduled_runNet.
    destruct (HtmlReporter.isContestPeriod (Network.netClock world 0)); [| reflexivity].
    destruct (HtmlReporter.is0Minute (Network.netClock world 1)); [| reflexivity].
    destruct (Network.getSettles world) as [[table |] |]; [| reflexivity | reflexivity].
    destruct (HtmlReporter.thead table); reflexivity.
  - unfold Network.netTrace, Network.netOutcome. rewrite html_scheduled_runNet.
    destruct (HtmlReporter.isContestPeriod (Network.netClock world 0)); [| reflexivity].
    destruct (HtmlReporter.is0Minute (Network.netClock world 1)); [| reflexivity].
    destruct (Network.getSettles world) as [[table |] |]; [| reflexivity | reflexivity].
    unfold HtmlReporter.tableToMarkdown.
    destruct (HtmlReporter.thead table); reflexivity.
  - unfold Network.netOutcome. rewrite html_scheduled_runNet.
    destruct (HtmlReporter.isContestPeriod (Network.netClock world 0)); [| reflexivity].
    destruct (HtmlReporter.is0Minute (Network.netClock world 1)); [| reflexivity].
    destruct (Network.getSettles world) as [[table |] |]; [| reflexivity | reflexivity].
    destruct (HtmlReporter.thead table); reflexivity.
  - intros Hgate Hresp. unfold Network.netTrace. rewrite html_scheduled_runNet.
    apply andb_true_iff in Hgate as [-> ->]. now rewrite Hresp.
  - intros pre url content post Htr.
    exact (postsFollowGet_sound _ false Hord pre url content post Htr).
Qed.

(** Inside the window, at minute 0: a page without a table is not posted, and
    Scenario A's table is posted after the GET, also when the POST rejects. *)
Lemma html_handler_dispatch_witness :
  (HtmlReporter.isContestPeriod noonInside && HtmlReporter.is0Minute noonInside = true
   /\ Network.netTrace (HtmlReporter.scheduled htmlEnv)
        (Network.mkNetWorld (fun _ => noonInside) (Network.Resolved None) (Network.Resolved tt))
      = [EGet HtmlReporter.RANKING_PAGE_URL; EConsole ErrorLevel "Table not found"])
  /\ (Network.netTrace (HtmlReporter.scheduled htmlEnv)
        (Network.mkNetWorld (fun _ => noonInside) (Network.Resolved (Some tableA)) Network.Rejected)
      = ([EGet HtmlReporter.RANKING_PAGE_URL]
         ++ EPost "https://discord.example/webhook"
              (Some (HtmlReporter.renderTable headerA rowsA)) :: [])%list
      /\ existsb isGet [EGet HtmlReporter.RANKING_PAGE_URL] = true).
Proof.
  assert (Hgate : HtmlReporter.isContestPeriod noonInside && HtmlReporter.is0Minute noonInside = true)
    by reflexivity.
  assert (Htr : Network.netTrace (HtmlReporter.scheduled htmlEnv)
                  (Network.mkNetWorld (fun _ => noonInside)
                     (Network.Resolved (Some tableA)) Network.Rejected)
                = ([EGet HtmlReporter.RANKING_PAGE_URL]
                   ++ EPost "https://discord.example/webhook"
                        (Some (HtmlReporter.renderTable headerA rowsA)) :: [])%list)
    by reflexivity.
  split.
  - split; [exact Hgate |].
    exact (proj1 (proj2 (proj2 (proj2
             (html_handler_dispatch htmlEnv
                (Network.mkNetWorld (fun _ => noonInside) (Network.Resolved None)
                   (Network.Resolved tt))))))
             Hgate eq_refl).
  - split; [exact Htr |].
    exact (proj2 (proj2 (proj2 (proj2
             (html_handler_dispatch htmlEnv
                (Network.mkNetWorld (fun _ => noonInside) (Network.Resolved (Some tableA))
                   Network.Rejected)))))
             _ _ _ _ Htr).
Defined.

(** X11: the runs of the API reporter's handler, a network call being free to
    reject, for a response that, when it resolves, decodes to an array of
    items of the declared type (the code casts without checking; other
    payloads are outside this statement). The handler attempts one GET, of
    the leaderboard endpoint, exactly when the time lies in the contest
    window, and no other GET. It attempts one POST exactly when the GET
    resolved to a non-empty array, to the configured webhook and with the
    text [responseToMarkdown] returned, and no other POST: the content of a
    POST is never missing. A POST never comes before the GET. The run ends
    on the [TypeError] of [responseToMarkdown] when the array is empty, on an
    uncaught rejection when the GET rejects or the attempted POST rejects,
    and normally otherwise. *)
Theorem api_handler_dispatch (env : Reporter.Env)
  (world : Network.NetWorld Reporter.APIResponse) :
  filter isGet (Network.netTrace (Reporter.scheduled env) world)
  = (if Reporter.isContestPeriod (Network.netClock world 0)
     then [EGet Reporter.RANKING_API_URL] else [])
  /\ filter isPost (Network.netTrace (Reporter.scheduled env) world)
     = (if Reporter.isContestPeriod (Network.netClock world 0)
        then match Network.getSettles world with
             | Network.Resolved results =>
                 match Network.netOutcome (Reporter.responseToMarkdown results) world with
                 | Network.Ended (Returned md) =>
                     [EPost (Reporter.DISCORD_WEBHOOK_URL env) (Some md)]
                 | _ => []
                 end
             | Network.Rejected => []
             end
        else [])
  /\ Network.netOutcome (Reporter.scheduled env) world
     = (if Reporter.isContestPeriod (Network.netClock world 0)
        then match Network.getSettles world with
             | Network.Rejected => Network.UncaughtRejection
             | Network.Resolved [] => Network.Ended (Uncaught TypeError)
             | Network.Resolved (_ :: _) =>
                 match Network.postSettles world with
                 | Network.Resolved _ => Network.Ended (Returned tt)
                 | Network.Rejected => Network.UncaughtRejection
                 end
             end
        else Network.Ended (Returned tt))
  /\ (forall (url : string) (content : option string),
         In (EPost url content) (Network.netTrace (Reporter.scheduled env) world) ->
         url = Reporter.DISCORD_WEBHOOK_URL env /\ content <> None)
  /\ (forall (pre : list Event) (url : string) (content : option string) (post : list Event),
         Network.netTrace (Reporter.scheduled env) world
         = (pre ++ EPost url content :: post)%list ->
         existsb isGet pre = true).
Proof.
  assert (Hord : postsFollowGet false (Network.netTrace (Reporter.scheduled env) world) = true).
  { unfold Network.netTrace. rewrite api_scheduled_runNet.
    destruct (Reporter.isContestPeriod (Network.netClock world 0)); [| reflexivity].
    destruct (Network.getSettles world) as [[| first rest] |]; reflexivity. }
  split; [| split; [| split; [| split]]].
  - unfold Network.netTrace. rewrite api_scheduled_runNet.
    destruct (Reporter.isContestPeriod (Network.netClock world 0)); [| reflexivity].
    destruct (Network.getSettles world) as [[| first rest] |]; reflexivity.
  - unfold Network.netTrace, Network.netOutcome. rewrite api_scheduled_runNet.
    destruct (Reporter.isContestPeriod (Network.netClock world 0)); [| reflexivity].
    destruct (Network.getSettles world) as [[| first rest] |]; reflexivity.
  - unfold Network.netOutcome. rewrite api_scheduled_runNet.
    destruct (Reporter.isContestPeriod (Network.netClock world 0)); [| reflexivity].
    destruct (Network.getSettles world) as [[| first rest] |]; reflexivity.
  - intros url content. unfold Network.netTrace. rewrite api_scheduled_runNet.
    destruct (Reporter.isContestPeriod (Network.netClock world 0)); cbn [negb fst].
    + destruct (Network.getSettles world) as [[| first rest] |]; cbn [fst In].
      * intros [H | []]. discriminate H.
      * intros [H | [H | []]]; [discriminate H |].
        injection H as <- <-. split; [reflexivity | discriminate].
      * intros [H | []]. discriminate H.
    + intros [H | []]. discriminate H.
  - intros pre url content post Htr.
    exact (postsFollowGet_sound _ false Hord pre url content post Htr).
Qed.

(** Inside the window, Scenario A's leaderboard is posted after the GET, with
    its content, also when the POST rejects. *)
Lemma api_handler_dispatch_witness :
  In (EPost "https://discord.example/webhook"
        (Some (Reporter.markdown
                 (fold_left Reporter.loopBody apiA
                    (Reporter.loopStart (Reporter.mkResult "Alpha" "" 100)))
               ++ ("```" ++ nl))))
    (Network.netTrace (Reporter.scheduled apiEnv)
       (Network.mkNetWorld (fun _ => noonInside) (Network.Resolved apiA) Network.Rejected))
  /\ "https://discord.example/webhook" = Reporter.DISCORD_WEBHOOK_URL apiEnv
  /\ Some (Reporter.markdown
             (fold_left Reporter.loopBody apiA
                (Reporter.loopStart (Reporter.mkResult "Alpha" "" 100)))
           ++ ("```" ++ nl)) <> None.
Proof.
  assert (Hin : In (EPost "https://discord.example/webhook"
                      (Some (Reporter.markdown
                               (fold_left Reporter.loopBody apiA
                                  (Reporter.loopStart (Reporter.mkResult "Alpha" "" 100)))
                             ++ ("```" ++ nl))))
                  (Network.netTrace (Reporter.scheduled apiEnv)
                     (Network.mkNetWorld (fun _ => noonInside) (Network.Resolved apiA)
                        Network.Rejected))).
  { unfold Network.netTrace. rewrite api_scheduled_runNet. right. left. reflexivity. }
  split; [exact Hin |].
  exact (proj1 (proj2 (proj2 (proj2
           (api_handler_dispatch apiEnv
              (Network.mkNetWorld (fun _ => noonInside) (Network.Resolved apiA)
                 Network.Rejected)))))
           _ _ Hin).
Defined.

End Extras.
